(** * RLgraph / YARL distributed execution: the Ray worker and executor

    A shallow embedding of
      - [rlgraph/execution/ray/ray_worker.py]  (class [RayWorker]) and
      - [yarl/execution/ray/ray_executor.py]   (class [RayExecutor]),
    followed by the properties of the rollout loop, of the batch
    post-processor and of the statistics report.

    Conventions of the embedding.
      - Python [int] is [Z]; list positions produced by [range_] are [nat].
      - Rewards, discounts and clock readings are Python floats in the source;
        they are embedded as exact rationals [Q], so every statement about
        their values is a statement of exact arithmetic.
      - Observations and preprocessed observations are both numpy arrays in
        the source; they share one type [State].
      - The environment, the agent, numpy and the compression helper are
        external: they are interfaces (type classes) here.
      - Exceptions are values of [exn]; a computation that may raise returns a
        [result].  Unbounded loops take fuel and return [None] when it runs
        out; [rollout_loop_spec] shows that the fuel chosen by
        [execute_and_get_timesteps] always suffices. *)

From stdpp Require Import base list strings gmap.
From Stdlib Require Import ZArith QArith Qabs Qminmax Lia Lqa.

Close Scope Q_scope.

(** ** Python exceptions and the error monad *)

Inductive exn : Type :=
| UnboundLocalError
| ValueError
| IndexError
| ZeroDivisionError.

Inductive result (A : Type) : Type :=
| Ok (a : A)
| Raise (e : exn).

Arguments Ok {A} a.
Arguments Raise {A} e.

Definition bind {A B : Type} (m : result A) (k : A -> result B) : result B :=
  match m with
  | Ok a => k a
  | Raise e => Raise e
  end.

Notation "x <- m ;; k" := (bind m (fun x => k))
  (at level 100, m at next level, right associativity).

(** ** Python lists *)

Module Py.

(** [l[i]] for a non-negative position. *)
Definition getitem {A : Type} (l : list A) (i : nat) : result A :=
  match l !! i with
  | Some x => Ok x
  | None => Raise IndexError
  end.

(** [l[i] = x] for a non-negative position. *)
Definition setitem {A : Type} (l : list A) (i : nat) (x : A) : result (list A) :=
  if decide (i < length l)%nat then Ok (<[i:=x]> l) else Raise IndexError.

(** [len(l)]. *)
Definition len {A : Type} (l : list A) : Z := Z.of_nat (length l).

(** The first position of the slice [l[k:]]: a negative [k] counts from the
    end and both ends are clamped. *)
Definition slice_start {A : Type} (l : list A) (k : Z) : nat :=
  Z.to_nat (if (k <? 0)%Z then Z.max (len l + k) 0 else k).

(** [del l[k:]]. *)
Definition del_from {A : Type} (l : list A) (k : Z) : list A :=
  take (slice_start l k) l.

(** [range_(stop)] and [range_(start, stop)] for [0 <= start]. *)
Definition range_ (stop : Z) : list nat := seq 0 (Z.to_nat stop).
Definition range2 (start stop : Z) : list nat :=
  seq (Z.to_nat start) (Z.to_nat (stop - start)).

(** [l[-1]]. *)
Definition last_item {A : Type} (l : list A) : result A :=
  match last l with
  | Some x => Ok x
  | None => Raise IndexError
  end.

(** [sum(l)]. *)
Definition sum (l : list Q) : Q := foldl Qplus 0%Q l.

End Py.

(** ** numpy reductions *)

Module Np.

(** [np.min] and [np.max] raise [ValueError] on an empty sequence
    ("zero-size array to reduction operation ... which has no identity"). *)
Definition min (l : list Q) : result Q :=
  match l with
  | [] => Raise ValueError
  | x :: l' => Ok (foldl Qmin x l')
  end.

Definition max (l : list Q) : result Q :=
  match l with
  | [] => Raise ValueError
  | x :: l' => Ok (foldl Qmax x l')
  end.

(** [np.mean] of a non-empty sequence. *)
Definition mean (l : list Q) : Q := (Py.sum l / inject_Z (Py.len l))%Q.

(** [np.ones_like]. *)
Definition ones_like (l : list Q) : list Q := map (fun _ => 1%Q) l.

End Np.

(** ** External collaborators *)

(** The simulation handle: [reset()] and [step(actions=...)], each acting on
    the environment's own state [Env]. The [info] of [step] is never read. *)
Class Environment (Env State Act : Type) : Type := {
  env_reset : Env -> Env * State;
  env_step : Env -> Act -> Env * (State * Q * bool)
}.

(** The transitions handed to [agent.update]. *)
Record UpdateBatch (State Act : Type) : Type := mkUpdateBatch {
  ub_states : list State;
  ub_actions : list Act;
  ub_rewards : list Q;
  ub_terminals : list bool;
  ub_next_states : list State;
  ub_importance_weights : list Q
}.

Arguments mkUpdateBatch {State Act}.
Arguments ub_rewards {State Act}.

(** The agent handle. [get_action] is called with
    [extra_returns="preprocessed_states"] and so returns the action and the
    preprocessed state; [agent_update] returns the per-item loss (its first
    result is dropped by the caller). [force_batch] is the method of the
    agent's [preprocessed_state_space]. *)
Class Agent (Agt State Act : Type) : Type := {
  agent_reset : Agt -> Agt;
  get_action : Agt -> State -> bool -> Agt * (Act * State);
  preprocess_states : Agt -> State -> Agt * State;
  force_batch : Agt -> State -> State;
  agent_update : Agt -> UpdateBatch State Act -> Agt * list Q
}.

(** numpy on observations, and [ray_compress]. *)
Class Arrays (State Blob : Type) : Type := {
  zeros_like : State -> State;
  squeeze : State -> State;
  ray_compress : State -> Blob
}.

(** ** The batch post-processor *)

Section NStep.

Context {State : Type}.

(** The body of [for j in range_(1, self.n_step_adjustment)], over the
    positions [js] still to visit. *)
Fixpoint n_step_fold (js : list nat) (i : nat) (discount : Q)
    (states : list State) (rewards : list Q) (terminals : list bool)
  : result (list State * list Q) :=
  match js with
  | [] => Ok (states, rewards)
  | j :: js' =>
      s <- Py.getitem states (i + j);;
      states' <- Py.setitem states i s;;
      ri <- Py.getitem rewards i;;
      rij <- Py.getitem rewards (i + j);;
      rewards' <- Py.setitem rewards i (ri + Qpower discount (Z.of_nat j) * rij)%Q;;
      t <- Py.getitem terminals (i + j);;
      if t : bool then Ok (states', rewards')
      else n_step_fold js' i discount states' rewards' terminals
  end.

(** The body of [for i in range_(len(rewards) - self.n_step_adjustment + 1)]. *)
Fixpoint n_step_loop (positions : list nat) (n : Z) (discount : Q)
    (states : list State) (rewards : list Q) (terminals : list bool)
  : result (list State * list Q) :=
  match positions with
  | [] => Ok (states, rewards)
  | i :: positions' =>
      t <- Py.getitem terminals i;;
      if t : bool then n_step_loop positions' n discount states rewards terminals
      else
        folded <- n_step_fold (Py.range2 1 n) i discount states rewards terminals;;
        n_step_loop positions' n discount folded.1 folded.2 terminals
  end.

(** What the two loops are meant to leave at position [i], read off the
    arrays as they were BEFORE the block: the reward at [i] plus
    [discount^j * rewards[i+j]] for the [j] of [js] in turn, stopping after
    the first [j] whose transition is terminal ... *)
Fixpoint folded_reward (js : list nat) (i : nat) (discount : Q)
    (rewards : list Q) (terminals : list bool) (acc : Q) : Q :=
  match js with
  | [] => acc
  | j :: js' =>
      let acc' :=
        (acc + Qpower discount (Z.of_nat j) * default 0%Q (rewards !! (i + j)%nat))%Q in
      if default false (terminals !! (i + j)%nat) then acc'
      else folded_reward js' i discount rewards terminals acc'
  end.

(** ... and the entry of [states] at the last [j] visited. *)
Fixpoint folded_state (js : list nat) (i : nat) (states : list State)
    (terminals : list bool) (cur : State) : State :=
  match js with
  | [] => cur
  | j :: js' =>
      let cur' := default cur (states !! (i + j)%nat) in
      if default false (terminals !! (i + j)%nat) then cur'
      else folded_state js' i states terminals cur'
  end.

(** Positions whose own transition is terminal are skipped. *)
Definition adjusted_reward (n : Z) (discount : Q) (rewards : list Q)
    (terminals : list bool) (i : nat) : option Q :=
  match rewards !! i with
  | Some ri =>
      Some (if default false (terminals !! i) then ri
            else folded_reward (Py.range2 1 n) i discount rewards terminals ri)
  | None => None
  end.

Definition adjusted_state (n : Z) (states : list State) (terminals : list bool)
    (i : nat) : option State :=
  match states !! i with
  | Some si =>
      Some (if default false (terminals !! i) then si
            else folded_state (Py.range2 1 n) i states terminals si)
  | None => None
  end.

End NStep.

(** The five per-field arrays of a trajectory. *)
Record Trajectory (State Act : Type) : Type := mkTrajectory {
  tr_states : list State;
  tr_actions : list Act;
  tr_rewards : list Q;
  tr_next_states : list State;
  tr_terminals : list bool
}.

Arguments mkTrajectory {State Act}.
Arguments tr_states {State Act}.
Arguments tr_actions {State Act}.
Arguments tr_rewards {State Act}.
Arguments tr_next_states {State Act}.
Arguments tr_terminals {State Act}.

(** The block guarded by [if self.n_step_adjustment > 1]: the two loops, then
    the truncation of all five arrays at [new_len]. *)
Definition n_step_adjust {State Act : Type} (n : Z) (discount : Q)
    (t : Trajectory State Act) : result (Trajectory State Act) :=
  folded <-
    n_step_loop (Py.range_ (Py.len (tr_rewards t) - n + 1)) n discount
      (tr_states t) (tr_rewards t) (tr_terminals t);;
  let '(states, rewards) := folded in
  let new_len := (Py.len states - n + 1)%Z in
  Ok (mkTrajectory
        (Py.del_from states new_len)
        (Py.del_from (tr_actions t) new_len)
        (Py.del_from rewards new_len)
        (Py.del_from (tr_next_states t) new_len)
        (Py.del_from (tr_terminals t) new_len)).

(** The returned [dict(states=..., actions=..., rewards=..., terminals=...,
    importance_weights=...)]. *)
Record SampleBatch (Blob Act : Type) : Type := mkSampleBatch {
  states : list Blob;
  actions : list Act;
  rewards : list Q;
  terminals : list bool;
  importance_weights : list Q
}.

Arguments mkSampleBatch {Blob Act}.
Arguments states {Blob Act}.
Arguments actions {Blob Act}.
Arguments rewards {Blob Act}.
Arguments terminals {Blob Act}.
Arguments importance_weights {Blob Act}.

(** ** The worker *)

Section Worker.

Context {Env Agt State Act Blob : Type}.
Context `{!Environment Env State Act} `{!Agent Agt State Act} `{!Arrays State Blob}.

(** [rlgraph.SMALL_NUMBER], a constant of the package's [__init__]. *)
Variable SMALL_NUMBER : Q.

(** The attributes set by [RayWorker.__init__]. *)
Record RayWorker : Type := mkRayWorker {
  env_frame_skip : Z;
  environment : Env;
  worker_computes_weights : bool;
  n_step_adjustment : Z;
  discount : Q;
  agent : Agt;
  worker_frameskip : Z;
  episode_rewards : list Q;
  episode_timesteps : list Z;
  total_worker_steps : Z;
  episodes_executed : Z;
  sample_times : list Q;
  sample_steps : list Z;
  sample_env_frames : list Z;
  last_state : State;
  last_ep_timestep : Z;
  last_ep_reward : Q;
  last_terminal : bool
}.

(** Attribute assignment [self.x = v], one function per assigned attribute. *)
Definition set_environment (self : RayWorker) (v : Env) : RayWorker :=
  mkRayWorker
    (env_frame_skip self) v (worker_computes_weights self)
    (n_step_adjustment self) (discount self) (agent self) (worker_frameskip self)
    (episode_rewards self) (episode_timesteps self) (total_worker_steps self)
    (episodes_executed self) (sample_times self) (sample_steps self)
    (sample_env_frames self) (last_state self) (last_ep_timestep self)
    (last_ep_reward self) (last_terminal self).

Definition set_agent (self : RayWorker) (v : Agt) : RayWorker :=
  mkRayWorker
    (env_frame_skip self) (environment self) (worker_computes_weights self)
    (n_step_adjustment self) (discount self) v (worker_frameskip self)
    (episode_rewards self) (episode_timesteps self) (total_worker_steps self)
    (episodes_executed self) (sample_times self) (sample_steps self)
    (sample_env_frames self) (last_state self) (last_ep_timestep self)
    (last_ep_reward self) (last_terminal self).

Definition set_episode_rewards (self : RayWorker) (v : list Q) : RayWorker :=
  mkRayWorker
    (env_frame_skip self) (environment self) (worker_computes_weights self)
    (n_step_adjustment self) (discount self) (agent self) (worker_frameskip self)
    v (episode_timesteps self) (total_worker_steps self) (episodes_executed self)
    (sample_times self) (sample_steps self) (sample_env_frames self)
    (last_state self) (last_ep_timestep self) (last_ep_reward self)
    (last_terminal self).

Definition set_episode_timesteps (self : RayWorker) (v : list Z) : RayWorker :=
  mkRayWorker
    (env_frame_skip self) (environment self) (worker_computes_weights self)
    (n_step_adjustment self) (discount self) (agent self) (worker_frameskip self)
    (episode_rewards self) v (total_worker_steps self) (episodes_executed self)
    (sample_times self) (sample_steps self) (sample_env_frames self)
    (last_state self) (last_ep_timestep self) (last_ep_reward self)
    (last_terminal self).

Definition set_total_worker_steps (self : RayWorker) (v : Z) : RayWorker :=
  mkRayWorker
    (env_frame_skip self) (environment self) (worker_computes_weights self)
    (n_step_adjustment self) (discount self) (agent self) (worker_frameskip self)
    (episode_rewards self) (episode_timesteps self) v (episodes_executed self)
    (sample_times self) (sample_steps self) (sample_env_frames self)
    (last_state self) (last_ep_timestep self) (last_ep_reward self)
    (last_terminal self).

Definition set_episodes_executed (self : RayWorker) (v : Z) : RayWorker :=
  mkRayWorker
    (env_frame_skip self) (environment self) (worker_computes_weights self)
    (n_step_adjustment self) (discount self) (agent self) (worker_frameskip self)
    (episode_rewards self) (episode_timesteps self) (total_worker_steps self) v
    (sample_times self) (sample_steps self) (sample_env_frames self)
    (last_state self) (last_ep_timestep self) (last_ep_reward self)
    (last_terminal self).

Definition set_sample_times (self : RayWorker) (v : list Q) : RayWorker :=
  mkRayWorker
    (env_frame_skip self) (environment self) (worker_computes_weights self)
    (n_step_adjustment self) (discount self) (agent self) (worker_frameskip self)
    (episode_rewards self) (episode_timesteps self) (total_worker_steps self)
    (episodes_executed self) v (sample_steps self) (sample_env_frames self)
    (last_state self) (last_ep_timestep self) (last_ep_reward self)
    (last_terminal self).

Definition set_sample_steps (self : RayWorker) (v : list Z) : RayWorker :=
  mkRayWorker
    (env_frame_skip self) (environment self) (worker_computes_weights self)
    (n_step_adjustment self) (discount self) (agent self) (worker_frameskip self)
    (episode_rewards self) (episode_timesteps self) (total_worker_steps self)
    (episodes_executed self) (sample_times self) v (sample_env_frames self)
    (last_state self) (last_ep_timestep self) (last_ep_reward self)
    (last_terminal self).

Definition set_sample_env_frames (self : RayWorker) (v : list Z) : RayWorker :=
  mkRayWorker
    (env_frame_skip self) (environment self) (worker_computes_weights self)
    (n_step_adjustment self) (discount self) (agent self) (worker_frameskip self)
    (episode_rewards self) (episode_timesteps self) (total_worker_steps self)
    (episodes_executed self) (sample_times self) (sample_steps self) v
    (last_state self) (last_ep_timestep self) (last_ep_reward self)
    (last_terminal self).

Definition set_last_ep_reward (self : RayWorker) (v : Q) : RayWorker :=
  mkRayWorker
    (env_frame_skip self) (environment self) (worker_computes_weights self)
    (n_step_adjustment self) (discount self) (agent self) (worker_frameskip self)
    (episode_rewards self) (episode_timesteps self) (total_worker_steps self)
    (episodes_executed self) (sample_times self) (sample_steps self)
    (sample_env_frames self) (last_state self) (last_ep_timestep self) v
    (last_terminal self).

Definition set_last_terminal (self : RayWorker) (v : bool) : RayWorker :=
  mkRayWorker
    (env_frame_skip self) (environment self) (worker_computes_weights self)
    (n_step_adjustment self) (discount self) (agent self) (worker_frameskip self)
    (episode_rewards self) (episode_timesteps self) (total_worker_steps self)
    (episodes_executed self) (sample_times self) (sample_steps self)
    (sample_env_frames self) (last_state self) (last_ep_timestep self)
    (last_ep_reward self) v.

(** [RayWorker.__init__], after the look-ups in the configuration
    dictionaries: [env_frame_skip_] is [env_spec.get("frameskip", 1)], [env]
    the environment built from [env_spec], [computes_weights] and [n_step]
    the popped worker parameters, [discount_] is
    [agent_config.get("discount", 0.99)] and [agt] the agent built by
    [setup_agent]. *)
Definition init (env_frame_skip_ : Z) (env : Env) (computes_weights : bool)
    (n_step : Z) (discount_ : Q) (agt : Agt) (frameskip : Z) : RayWorker :=
  let '(env', state0) := env_reset env in
  {| env_frame_skip := env_frame_skip_;
     environment := env';
     worker_computes_weights := computes_weights;
     n_step_adjustment := n_step;
     discount := discount_;
     agent := agent_reset agt;
     worker_frameskip := frameskip;
     episode_rewards := [];
     episode_timesteps := [];
     total_worker_steps := 0;
     episodes_executed := 0;
     sample_times := [];
     sample_steps := [];
     sample_env_frames := [];
     last_state := state0;
     last_ep_timestep := 0;
     last_ep_reward := 0;
     last_terminal := false |}.

(** [get_constructor_success]. *)
Definition get_constructor_success (self : RayWorker) : bool :=
  negb (last_terminal self).

(** *** [_process_sample_if_necessary] *)

(** The statement [if self.n_step_adjustment > 1: ...]. *)
Definition n_step_correction (self : RayWorker) (t : Trajectory State Act)
  : result (Trajectory State Act) :=
  if (1 <? n_step_adjustment self)%Z
  then n_step_adjust (n_step_adjustment self) (discount self) t
  else Ok t.

Definition _process_sample_if_necessary (self : RayWorker)
    (t : Trajectory State Act) : result (RayWorker * (SampleBatch Blob Act * Z)) :=
  t' <- n_step_correction self t;;
  let weights := Np.ones_like (tr_rewards t') in
  let '(agt, weights') :=
    if worker_computes_weights self then
      let '(agt, loss_per_item) :=
        agent_update (agent self)
          (mkUpdateBatch (tr_states t') (tr_actions t') (tr_rewards t')
             (tr_terminals t') (tr_next_states t') weights) in
      (agt, map (fun loss => (Qabs loss + SMALL_NUMBER)%Q) loss_per_item)
    else (agent self, weights) in
  Ok (set_agent self agt,
      (mkSampleBatch (map ray_compress (tr_states t')) (tr_actions t')
         (tr_rewards t') (tr_terminals t') weights',
       Py.len (tr_rewards t'))).

(** *** [execute_and_get_timesteps] *)

(** The locals bound before the outer loop. The four lists carry the prefix
    [l_] (the batch's keys own the plain names), and [l_episodes_executed]
    is the local [episodes_executed], "executed episodes within this exec
    call", as opposed to the attribute [self.episodes_executed]. *)
Record Locals : Type := mkLocals {
  timesteps_executed : Z;
  l_episodes_executed : Z;
  env_frames : Z;
  l_states : list State;
  l_actions : list Act;
  l_rewards : list Q;
  l_terminals : list bool;
  break_loop : bool;
  next_state : State
}.

(** The locals bound only once the outer loop has been entered. *)
Record Episode : Type := mkEpisode {
  state : State;
  episode_reward : Q;
  episode_timestep : Z;
  terminal : bool
}.

(** [for _ in range_(self.worker_frameskip)], with [k] rounds left. *)
Fixpoint frameskip_loop (k : nat) (env : Env) (action : Act)
    (next_state_ : State) (reward : Q) (terminal_ : bool) (env_frames_ : Z)
  : Env * State * Q * bool * Z :=
  match k with
  | O => (env, next_state_, reward, terminal_, env_frames_)
  | S k' =>
      let '(env', (next_state', step_reward, terminal')) := env_step env action in
      let env_frames' := (env_frames_ + 1)%Z in
      let reward' := (reward + step_reward)%Q in
      if terminal' then (env', next_state', reward', terminal', env_frames')
      else frameskip_loop k' env' action next_state' reward' terminal' env_frames'
  end.

(** The [metrics] of a sample and the [EnvironmentSample] itself. The
    metric [timesteps_executed] carries the prefix [m_]. *)
Record Metrics : Type := mkMetrics {
  runtime : Q;
  m_timesteps_executed : Z;
  ops_per_second : Q
}.

Record EnvironmentSample : Type := mkEnvironmentSample {
  sample_batch : SampleBatch Blob Act;
  batch_size : Z;
  metrics : Metrics
}.

Section Call.

Variables num_timesteps max_timesteps_per_episode : Z.
Variables use_exploration break_on_terminal : bool.

(** One pass through the body of [while True], up to the boundary test. *)
Definition decision_point (self : RayWorker) (l : Locals) (ep : Episode)
  : RayWorker * Locals * Episode :=
  let '(agt, (action, preprocessed_state)) :=
    get_action (agent self) (state ep) use_exploration in
  let '(env, next_state', reward, terminal', env_frames') :=
    frameskip_loop (Z.to_nat (worker_frameskip self)) (environment self) action
      (next_state l) 0%Q (terminal ep) (env_frames l) in
  (set_environment (set_agent self agt) env,
   {| timesteps_executed := timesteps_executed l + 1;
      l_episodes_executed := l_episodes_executed l;
      env_frames := env_frames';
      l_states := l_states l ++ [preprocessed_state];
      l_actions := l_actions l ++ [action];
      l_rewards := l_rewards l ++ [reward];
      l_terminals := l_terminals l ++ [terminal'];
      break_loop := break_loop l;
      next_state := next_state' |},
   {| state := next_state';
      episode_reward := (episode_reward ep + reward)%Q;
      episode_timestep := episode_timestep ep + 1;
      terminal := terminal' |}).

(** [terminal or (0 < num_timesteps <= timesteps_executed) or
    (0 < max_timesteps_per_episode <= episode_timestep)]. *)
Definition episode_boundary (l : Locals) (ep : Episode) : bool :=
  terminal ep
  || ((0 <? num_timesteps)%Z && (num_timesteps <=? timesteps_executed l)%Z)
  || ((0 <? max_timesteps_per_episode)%Z
      && (max_timesteps_per_episode <=? episode_timestep ep)%Z).

(** The block run on an episode boundary, up to its [break]. *)
Definition episode_bookkeeping (self : RayWorker) (l : Locals) (ep : Episode)
  : RayWorker * Locals :=
  (set_total_worker_steps
     (set_episode_timesteps
        (set_episode_rewards self (episode_rewards self ++ [episode_reward ep]))
        (episode_timesteps self ++ [episode_timestep ep]))
     (total_worker_steps self + timesteps_executed l),
   {| timesteps_executed := timesteps_executed l;
      l_episodes_executed := l_episodes_executed l + 1;
      env_frames := env_frames l;
      l_states := l_states l;
      l_actions := l_actions l;
      l_rewards := l_rewards l;
      l_terminals := l_terminals l;
      break_loop := if terminal ep && break_on_terminal then true else break_loop l;
      next_state := next_state l |}).

(** [while True: ...], the loop over the decision points of one episode. *)
Fixpoint episode_loop (fuel : nat) (self : RayWorker) (l : Locals) (ep : Episode)
  : option (RayWorker * Locals * Episode) :=
  match fuel with
  | O => None
  | S fuel' =>
      let '(self1, l1, ep1) := decision_point self l ep in
      if episode_boundary l1 ep1 then
        let '(self2, l2) := episode_bookkeeping self1 l1 ep1 in
        Some (self2, l2, ep1)
      else
        episode_loop fuel'
          (set_episodes_executed self1 (episodes_executed self1 + 1)) l1 ep1
  end.

(** The head of the outer loop's body: reset, or continue from the stored
    attributes. *)
Definition episode_start (self : RayWorker) (l : Locals) : RayWorker * Episode :=
  if last_terminal self || (0 <? l_episodes_executed l)%Z then
    let '(env, state0) := env_reset (environment self) in
    (set_last_ep_reward
       (set_agent (set_environment self env) (agent_reset (agent self))) 0%Q,
     {| state := state0; episode_reward := 0%Q; episode_timestep := 0;
        terminal := false |})
  else
    (self,
     {| state := last_state self; episode_reward := last_ep_reward self;
        episode_timestep := last_ep_timestep self; terminal := false |}).

(** [while timesteps_executed < num_timesteps: ...]. The third component
    is [None] as long as the loop body has never run, that is, as long as
    [state], [episode_reward], [episode_timestep] and [terminal] are
    unbound. *)
Fixpoint rollout_loop (fuel : nat) (self : RayWorker) (l : Locals)
    (bound : option Episode) : option (RayWorker * Locals * option Episode) :=
  match fuel with
  | O => None
  | S fuel' =>
      if (timesteps_executed l <? num_timesteps)%Z then
        let '(self1, ep0) := episode_start self l in
        match episode_loop fuel' self1 l ep0 with
        | None => None
        | Some (self2, l2, ep2) =>
            if break_loop l2 then Some (self2, l2, Some ep2)
            else rollout_loop fuel' self2 l2 (Some ep2)
        end
      else Some (self, l, bound)
  end.

(** The locals as they stand when the outer loop is reached. *)
Definition initial_locals (self : RayWorker) : Locals :=
  {| timesteps_executed := 0;
     l_episodes_executed := 0;
     env_frames := 0;
     l_states := [];
     l_actions := [];
     l_rewards := [];
     l_terminals := [];
     break_loop := false;
     next_state := zeros_like (last_state self) |}.

(** Everything after the outer loop, once [terminal] and [episode_reward]
    are known to be bound. [start] and [stop] are the two readings of
    [time.monotonic()]. *)
Definition finish_call (self : RayWorker) (l : Locals) (ep : Episode)
    (start stop : Q) : RayWorker * result EnvironmentSample :=
  let self1 :=
    set_last_ep_reward (set_last_terminal self (terminal ep)) (episode_reward ep) in
  let elapsed := (stop - start)%Q in
  let total_time := if Qeq_bool elapsed 0 then (1 # 10000000000)%Q else elapsed in
  let self2 :=
    set_sample_env_frames
      (set_sample_times
         (set_sample_steps self1 (sample_steps self1 ++ [timesteps_executed l]))
         (sample_times self1 ++ [total_time]))
      (sample_env_frames self1 ++ [env_frames l]) in
  let next_states := drop 1 (l_states l) in
  let '(agt, preprocessed_state) :=
    if terminal ep then (agent self2, zeros_like (next_state l))
    else preprocess_states (agent self2) (force_batch (agent self2) (next_state l)) in
  let self3 := set_agent self2 agt in
  let next_states' := next_states ++ [squeeze preprocessed_state] in
  match
    _process_sample_if_necessary self3
      (mkTrajectory (l_states l) (l_actions l) (l_rewards l) next_states'
         (l_terminals l))
  with
  | Raise e => (self3, Raise e)
  | Ok (self4, (sample_batch_, batch_size_)) =>
      (self4,
       Ok {| sample_batch := sample_batch_;
             batch_size := batch_size_;
             metrics :=
               {| runtime := total_time;
                  m_timesteps_executed := timesteps_executed l;
                  ops_per_second :=
                    (inject_Z (timesteps_executed l) / total_time)%Q |} |})
  end.

(** The whole method, with the fuel of its loops as a parameter. Reading
    the unbound [terminal] after a loop that never ran raises
    [UnboundLocalError]. *)
Definition execute_and_get_timesteps_fuel (fuel : nat) (self : RayWorker)
    (start stop : Q) : option (RayWorker * result EnvironmentSample) :=
  match rollout_loop fuel self (initial_locals self) None with
  | None => None
  | Some (self1, l, None) => Some (self1, Raise UnboundLocalError)
  | Some (self1, l, Some ep) => Some (finish_call self1 l ep start stop)
  end.

(** The method itself: every pass through [while True] adds one to
    [timesteps_executed], so [num_timesteps] passes and one last test of
    the outer condition are all the loops can make. *)
Definition execute_and_get_timesteps (self : RayWorker) (start stop : Q)
  : option (RayWorker * result EnvironmentSample) :=
  execute_and_get_timesteps_fuel (S (Z.to_nat num_timesteps)) self start stop.

(** [execute_and_get_with_count]. *)
Definition execute_and_get_with_count (self : RayWorker) (start stop : Q)
  : option (RayWorker * result (EnvironmentSample * Z)) :=
  match execute_and_get_timesteps self start stop with
  | None => None
  | Some (self', Ok sample) => Some (self', Ok (sample, batch_size sample))
  | Some (self', Raise e) => Some (self', Raise e)
  end.

End Call.

(** *** [get_workload_statistics] *)

(** The returned [dict]; its keys [episode_timesteps], [episode_rewards] and
    [episodes_executed] carry the prefix [ws_]. *)
Record WorkloadStatistics : Type := mkWorkloadStatistics {
  ws_episode_timesteps : list Z;
  ws_episode_rewards : list Q;
  min_episode_reward : Q;
  max_episode_reward : Q;
  mean_episode_reward : Q;
  final_episode_reward : Q;
  ws_episodes_executed : Z;
  worker_steps : Z;
  mean_worker_ops_per_second : Q;
  mean_worker_env_frames_per_second : Q
}.

(** [a / b] with a float divisor. *)
Definition truediv (a b : Q) : result Q :=
  if Qeq_bool b 0 then Raise ZeroDivisionError else Ok (a / b)%Q.

(** The keyword arguments of [dict(...)] are evaluated in the order they are
    written, so the first one that raises decides the outcome. *)
Definition get_workload_statistics (self : RayWorker) : result WorkloadStatistics :=
  let adjusted_frames :=
    map (fun env_frames_ => (env_frames_ * env_frame_skip self)%Z)
      (sample_env_frames self) in
  min_reward <- Np.min (episode_rewards self);;
  max_reward <- Np.max (episode_rewards self);;
  let mean_reward := Np.mean (episode_rewards self) in
  final_reward <- Py.last_item (episode_rewards self);;
  ops <- truediv (Py.sum (map inject_Z (sample_steps self)))
           (Py.sum (sample_times self));;
  frames <- truediv (Py.sum (map inject_Z adjusted_frames))
              (Py.sum (sample_times self));;
  Ok {| ws_episode_timesteps := episode_timesteps self;
        ws_episode_rewards := episode_rewards self;
        min_episode_reward := min_reward;
        max_episode_reward := max_reward;
        mean_episode_reward := mean_reward;
        final_episode_reward := final_reward;
        ws_episodes_executed := episodes_executed self;
        worker_steps := total_worker_steps self;
        mean_worker_ops_per_second := ops;
        mean_worker_env_frames_per_second := frames |}.

(** *** Vocabulary of the properties *)

(** All five arrays of a batch have [size] entries. *)
Definition aligned_batch (b : SampleBatch Blob Act) (size : Z) : Prop :=
  Py.len (states b) = size
  /\ Py.len (actions b) = size
  /\ Py.len (rewards b) = size
  /\ Py.len (terminals b) = size
  /\ Py.len (importance_weights b) = size.

(** The contract of [agent.update] that the batch relies on: the per-item
    loss has one entry per transition handed in. *)
Definition per_item_loss_aligned : Prop :=
  forall (a : Agt) (b : UpdateBatch State Act),
    length (agent_update a b).2 = length (ub_rewards b).

(** An environment that never reports a terminal. *)
Definition never_terminal : Prop :=
  forall (e : Env) (a : Act), (env_step e a).2.2 = false.

(** The four lists of the locals hold one entry per decision point. *)
Definition aligned_locals (l : Locals) : Prop :=
  Py.len (l_states l) = timesteps_executed l
  /\ Py.len (l_actions l) = timesteps_executed l
  /\ Py.len (l_rewards l) = timesteps_executed l
  /\ Py.len (l_terminals l) = timesteps_executed l.

(** The attributes that no statement of [execute_and_get_timesteps]
    assigns. *)
Definition same_config (self0 self : RayWorker) : Prop :=
  env_frame_skip self = env_frame_skip self0
  /\ worker_computes_weights self = worker_computes_weights self0
  /\ n_step_adjustment self = n_step_adjustment self0
  /\ discount self = discount self0
  /\ worker_frameskip self = worker_frameskip self0
  /\ last_state self = last_state self0
  /\ last_ep_timestep self = last_ep_timestep self0.

(** What relates the worker and the locals at two points of one call, each
    at the head of a pass through [while True] or after its [break]: the
    balance of the counters. *)
Record progress (self0 : RayWorker) (l0 : Locals)
    (self : RayWorker) (l : Locals) : Prop := mkProgress {
  pr_config : same_config self0 self;
  pr_steps : (timesteps_executed l0 <= timesteps_executed l)%Z;
  pr_episodes : (l_episodes_executed l0 <= l_episodes_executed l)%Z;
  pr_counter :
    (episodes_executed self - episodes_executed self0
     = (timesteps_executed l - timesteps_executed l0)
       - (l_episodes_executed l - l_episodes_executed l0))%Z;
  pr_episode_rewards :
    (Py.len (episode_rewards self) - Py.len (episode_rewards self0)
     = l_episodes_executed l - l_episodes_executed l0)%Z;
  pr_episode_timesteps :
    (Py.len (episode_timesteps self) - Py.len (episode_timesteps self0)
     = l_episodes_executed l - l_episodes_executed l0)%Z
}.

End Worker.

Arguments RayWorker : clear implicits.
Arguments EnvironmentSample : clear implicits.

(** ** The executor *)

Module RayExecutor.

Section Executor.

(** [Cls] are the actor classes and [Atom] the Python values that are not
    tuples. *)
Context {Cls Atom : Type}.

#[local] Unset Elimination Schemes.
Inductive pyobj : Type :=
| PyAtom (a : Atom)
| PyTuple (items : list pyobj).
#[local] Set Elimination Schemes.

(** How deep the tuples of a value nest. *)
Fixpoint depth (o : pyobj) : nat :=
  match o with
  | PyAtom _ => 0
  | PyTuple items => S (list_max (map depth items))
  end.

(** The Ray cluster as far as this file is concerned: the actors created
    so far, each recorded as its class and the positional arguments its
    constructor is called with. An actor handle is a position in it. *)
Definition cluster : Type := list (Cls * list pyobj).

(** [cls.remote] called with the positional arguments [posargs]: a new
    actor, never an existing one. *)
Definition remote (cls : Cls) (posargs : list pyobj) (c : cluster)
  : cluster * nat :=
  (c ++ [(cls, posargs)], length c).

(** [[cls.remote(args) for _ in xrange(num_actors)]], with [k] rounds
    left. The call passes [args], the tuple of the extra positional
    arguments, as ONE argument. *)
Fixpoint create_loop (k : nat) (cls : Cls) (args : list pyobj) (c : cluster)
  : cluster * list nat :=
  match k with
  | O => (c, [])
  | S k' =>
      let '(c1, handle) := remote cls [PyTuple args] c in
      let '(c2, handles) := create_loop k' cls args c1 in
      (c2, handle :: handles)
  end.

Definition create_remote_workers (cls : Cls) (num_actors : Z)
    (args : list pyobj) (c : cluster) : cluster * list nat :=
  create_loop (Z.to_nat num_actors) cls args c.

End Executor.

Arguments pyobj : clear implicits.
Arguments cluster : clear implicits.

End RayExecutor.

(** ** Building agents and environments from configurations

    [RayExecutor.build_agent_from_config] and
    [RayExecutor.build_env_from_config]. A configuration is a [dict] with
    string keys. The registries [Agent.__lookup_classes__] and
    [Environment.__lookup_classes__] belong to other packages: they are
    parameters here, dictionaries from type names to classes. A class is
    called but not run: the result of a build is the class together with the
    arguments its constructor is called with. *)

Module Builders.

Section Builders.

(** [Cls] are the registered classes, [V] the values of a configuration
    other than strings. *)
Context {Cls V : Type}.

Inductive value : Type :=
| Str (s : string)
| Hashable (v : V)
| Unhashable (v : V).

Inductive error : Type :=
| KeyError (key : string)
| TypeError.

Inductive outcome (A : Type) : Type :=
| Returned (a : A)
| Raised (e : error).

Arguments Returned {A} a.
Arguments Raised {A} e.

(** [registry.get(key)]: hashing an unhashable key raises [TypeError]; a key
    that is no registered name gives [None]. *)
Definition get_class (registry : gmap string Cls) (key : value) : outcome (option Cls) :=
  match key with
  | Str s => Returned (registry !! s)
  | Hashable _ => Returned None
  | Unhashable _ => Raised TypeError
  end.

(** [agent_cls = Agent.__lookup_classes__.get(agent_config.pop('type'))]
    and the call of [agent_cls] with the dictionary's entries as keyword
    arguments. The first component is the
    caller's dictionary as the call leaves it; calling [None] raises
    [TypeError]. *)
Definition build_agent_from_config (registry : gmap string Cls)
    (agent_config : gmap string value)
  : gmap string value * outcome (Cls * gmap string value) :=
  match agent_config !! "type" with
  | None => (agent_config, Raised (KeyError "type"))
  | Some type_ =>
      let agent_config' := delete "type" agent_config in
      match get_class registry type_ with
      | Raised e => (agent_config', Raised e)
      | Returned None => (agent_config', Raised TypeError)
      | Returned (Some agent_cls) =>
          (agent_config', Returned (agent_cls, agent_config'))
      end
  end.

(** [env_cls = Environment.__lookup_classes__.get(env_spec['type'])] and
    [return env_cls(env_spec['gym_env'])]: the argument is evaluated before
    the call is attempted. *)
Definition build_env_from_config (registry : gmap string Cls)
    (env_spec : gmap string value) : outcome (Cls * value) :=
  match env_spec !! "type" with
  | None => Raised (KeyError "type")
  | Some type_ =>
      match get_class registry type_ with
      | Raised e => Raised e
      | Returned env_cls =>
          match env_spec !! "gym_env" with
          | None => Raised (KeyError "gym_env")
          | Some gym_env =>
              match env_cls with
              | None => Raised TypeError
              | Some cls => Returned (cls, gym_env)
              end
          end
      end
  end.

End Builders.

Arguments value : clear implicits.
Arguments outcome : clear implicits.
Arguments Returned {A} a.
Arguments Raised {A} e.

End Builders.

(** ** The sequence helper

    [SequenceHelper._graph_fn_calc_sequence_lengths] and
    [SequenceHelper._graph_fn_calc_sequence_decays] of
    [rlgraph/components/helpers/sequence_helper.py], in their eager
    ("pytorch") branch. The entries of [sequence_indices] are integers, 1
    marking the end of a sequence. [torch.tensor(..., dtype=torch.int32)] is
    a parameter, one for a list of integers and one for a list of floats. *)

Module SequenceHelper.

Section Torch.

Context {Tensor : Type}.
Variable int32_tensor_of_ints : list Z -> Tensor.
Variable int32_tensor_of_floats : list Q -> Tensor.

(** [for index in sequence_indices: ...] of [calc_sequence_lengths]. *)
Fixpoint lengths_loop (sequence_indices : list Z) (sequence_lengths : list Z)
    (length_ : Z) : list Z * Z :=
  match sequence_indices with
  | [] => (sequence_lengths, length_)
  | index :: rest =>
      let length' := (length_ + 1)%Z in
      if (index =? 1)%Z then lengths_loop rest (sequence_lengths ++ [length']) 0
      else lengths_loop rest sequence_lengths length'
  end.

(** The list handed to [torch.tensor]: the loop, then "append final
    sequence". *)
Definition sequence_lengths_list (sequence_indices : list Z) : list Z :=
  let '(sequence_lengths, length_) := lengths_loop sequence_indices [] 0 in
  if (0 <? length_)%Z then sequence_lengths ++ [length_] else sequence_lengths.

Definition _graph_fn_calc_sequence_lengths (sequence_indices : list Z) : Tensor :=
  int32_tensor_of_ints (sequence_lengths_list sequence_indices).






(** The sum of a list of integers. *)
Definition total (l : list Z) : Z := foldr Z.add 0%Z l.

(** The number of entries that mark the end of a sequence. *)
Definition count_ends (sequence_indices : list Z) : nat :=
  length (filter (fun index => index = 1%Z) sequence_indices).

(** Whether the input stops inside a sequence: it is not empty and its last
    entry is no end mark. *)
Definition ends_open (sequence_indices : list Z) : bool :=
  match last sequence_indices with
  | Some index => negb (index =? 1)%Z
  | None => false
  end.

End Torch.

End SequenceHelper.

(** ** A concrete environment and agent

    A counting environment: its state is [(period, count)], the observation
    is [count], every step adds one to [count] and pays reward 1, and a step
    is terminal when the new [count] is a positive multiple of [period]. The
    endless variant has no period and no terminal. The agent has no state,
    always picks the one action and preprocesses nothing; its per-item loss
    is 0 everywhere. *)

Module Counting.

#[global] Instance counting_env : Environment (nat * nat) nat unit := {|
  env_reset := fun e => ((e.1, 0%nat), 0%nat);
  env_step := fun e _ =>
    let count := S e.2 in
    ((e.1, count),
     (count, 1%Q, negb (e.1 =? 0)%nat && (count mod e.1 =? 0)%nat))
|}.

#[global] Instance endless_env : Environment nat nat unit := {|
  env_reset := fun _ => (0%nat, 0%nat);
  env_step := fun count _ => (S count, (S count, 1%Q, false))
|}.

#[global] Instance plain_agent : Agent unit nat unit := {|
  agent_reset := fun a => a;
  get_action := fun a s _ => (a, (tt, s));
  preprocess_states := fun a s => (a, s);
  force_batch := fun _ s => s;
  agent_update := fun a b => (a, map (fun _ => 0%Q) (ub_rewards b))
|}.

#[global] Instance plain_arrays : Arrays nat nat := {|
  zeros_like := fun _ => 0%nat;
  squeeze := fun s => s;
  ray_compress := fun s => s
|}.

(** A fresh worker on the environment of the given [period]. *)
Definition fresh (period : nat) (computes_weights : bool) (n_step : Z)
    (discount_ : Q) (frameskip : Z) : RayWorker (nat * nat) unit nat :=
  init 1 (period, 0%nat) computes_weights n_step discount_ tt frameskip.

(** A fresh worker on the endless environment. *)
Definition fresh_endless (computes_weights : bool) (n_step : Z)
    (discount_ : Q) (frameskip : Z) : RayWorker nat unit nat :=
  init 1 0%nat computes_weights n_step discount_ tt frameskip.

(** [SMALL_NUMBER] for the examples. *)
Definition small : Q := (1 # 1000000)%Q.

(** Five transitions with rewards [1,1,1,1,1] and no terminal. *)
Definition unit_rewards : Trajectory nat unit :=
  mkTrajectory [0; 1; 2; 3; 4]%nat [tt; tt; tt; tt; tt] [1; 1; 1; 1; 1]%Q
    [1; 2; 3; 4; 5]%nat [false; false; false; false; false].

(** Three transitions: the states 0, 1, 2 and their successors 1, 2, 3. *)
Definition three_steps : Trajectory nat unit :=
  mkTrajectory [0; 1; 2]%nat [tt; tt; tt] [1; 1; 1]%Q [1; 2; 3]%nat
    [false; false; false].

(** The class handed to [create_remote_workers] and the three constructor
    arguments of [RayWorker.__init__]. *)
Inductive actor_class : Type := RayWorkerClass.
Inductive ctor_arg : Type := agent_config | env_spec | worker_spec.

End Counting.

(** * Properties *)

(** ** Python lists *)

Section PyFacts.

Context {A : Type}.

Lemma getitem_lt (l : list A) (i : nat) :
  (i < length l)%nat -> exists x, Py.getitem l i = Ok x.
Proof.
  intros Hi. unfold Py.getitem.
  destruct (lookup_lt_is_Some_2 l i Hi) as [x ->]. by exists x.
Qed.

Lemma setitem_lt (l : list A) (i : nat) (x : A) :
  (i < length l)%nat -> Py.setitem l i x = Ok (<[i:=x]> l).
Proof. intros Hi. unfold Py.setitem. by rewrite decide_True. Qed.

Lemma length_del_from {B : Type} (l : list A) (l' : list B) (k : Z) :
  length l = length l' -> length (Py.del_from l k) = length (Py.del_from l' k).
Proof.
  intros Hlen. unfold Py.del_from, Py.slice_start, Py.len.
  rewrite !length_take, Hlen. reflexivity.
Qed.

Lemma length_del_from_tail (l : list A) (n : Z) :
  (1 <= n <= Py.len l + 1)%Z ->
  Py.len (Py.del_from l (Py.len l - n + 1)) = (Py.len l - (n - 1))%Z.
Proof.
  intros Hn. unfold Py.del_from, Py.slice_start, Py.len in *.
  rewrite length_take.
  destruct (Z.ltb_spec (Z.of_nat (length l) - n + 1) 0); lia.
Qed.

End PyFacts.

(** ** The n-step loops on aligned arrays *)

Section NStepFacts.

Context {State : Type}.

Lemma n_step_fold_aligned (js : list nat) (i : nat) (d : Q) (L : nat) :
  forall (st : list State) (rw : list Q) (tm : list bool),
    length st = L -> length rw = L -> length tm = L ->
    (i < L)%nat -> Forall (fun j => (i + j < L)%nat) js ->
    exists st' rw',
      n_step_fold js i d st rw tm = Ok (st', rw')
      /\ length st' = L /\ length rw' = L.
Proof.
  induction js as [|j js IH]; intros st rw tm Hst Hrw Htm Hi Hjs; simpl.
  - eauto.
  - inversion Hjs as [|? ? Hj Hjs']; subst.
    destruct (getitem_lt st (i + j)) as [s ->]; [lia|]. simpl.
    rewrite setitem_lt by lia. simpl.
    destruct (getitem_lt rw i) as [ri ->]; [lia|]. simpl.
    destruct (getitem_lt rw (i + j)) as [rij ->]; [lia|]. simpl.
    rewrite setitem_lt by lia. simpl.
    destruct (getitem_lt tm (i + j)) as [t ->]; [lia|]. simpl.
    destruct t.
    + do 2 eexists. split; [reflexivity|]. by rewrite !length_insert.
    + apply IH; rewrite ?length_insert; auto.
Qed.

Lemma n_step_loop_aligned (positions : list nat) (n : Z) (d : Q) (L : nat) :
  forall (st : list State) (rw : list Q) (tm : list bool),
    length st = L -> length rw = L -> length tm = L ->
    Forall (fun i => (i < L)%nat
                     /\ Forall (fun j => (i + j < L)%nat) (Py.range2 1 n))
      positions ->
    exists st' rw',
      n_step_loop positions n d st rw tm = Ok (st', rw')
      /\ length st' = L /\ length rw' = L.
Proof.
  induction positions as [|i positions IH]; intros st rw tm Hst Hrw Htm Hpos; simpl.
  - eauto.
  - inversion Hpos as [|? ? [Hi Hjs] Hpos']; subst.
    destruct (getitem_lt tm i) as [t ->]; [lia|]. simpl.
    destruct t; [by apply IH|].
    destruct (n_step_fold_aligned (Py.range2 1 n) i d (length st) st rw tm)
      as (st1 & rw1 & -> & Hst1 & Hrw1); auto.
    simpl. apply IH; auto.
Qed.

Lemma n_step_positions_in_range (n : Z) (L : nat) :
  (1 <= n)%Z ->
  Forall (fun i => (i < L)%nat
                   /\ Forall (fun j => (i + j < L)%nat) (Py.range2 1 n))
    (Py.range_ (Z.of_nat L - n + 1)).
Proof.
  intros Hn. apply Forall_forall. intros i Hi.
  unfold Py.range_ in Hi. apply elem_of_seq in Hi.
  split; [lia|]. apply Forall_forall. intros j Hj.
  unfold Py.range2 in Hj. apply elem_of_seq in Hj. lia.
Qed.

(** On aligned arrays the n-step block raises nothing and leaves the five
    arrays aligned. *)
Lemma n_step_adjust_aligned {Act : Type} (n : Z) (d : Q)
    (t : Trajectory State Act) :
  (1 <= n)%Z ->
  length (tr_states t) = length (tr_rewards t) ->
  length (tr_actions t) = length (tr_rewards t) ->
  length (tr_terminals t) = length (tr_rewards t) ->
  exists t',
    n_step_adjust n d t = Ok t'
    /\ length (tr_states t') = length (tr_rewards t')
    /\ length (tr_actions t') = length (tr_rewards t')
    /\ length (tr_terminals t') = length (tr_rewards t')
    /\ Py.len (tr_rewards t')
       = Z.min
           (Z.of_nat (Py.slice_start (tr_rewards t) (Py.len (tr_rewards t) - n + 1)))
           (Py.len (tr_rewards t)).
Proof.
  intros Hn Hst Hac Htm. unfold n_step_adjust.
  destruct (n_step_loop_aligned
              (Py.range_ (Py.len (tr_rewards t) - n + 1)) n d
              (length (tr_rewards t)) (tr_states t) (tr_rewards t) (tr_terminals t))
    as (st' & rw' & -> & Hst' & Hrw'); auto.
  { by apply n_step_positions_in_range. }
  simpl. eexists. split; [reflexivity|]. simpl.
  assert (Hlen : Py.len st' = Py.len (tr_rewards t)) by (unfold Py.len; lia).
  rewrite Hlen.
  repeat split.
  - apply length_del_from. lia.
  - apply length_del_from. lia.
  - apply length_del_from. lia.
  - unfold Py.del_from, Py.len. rewrite length_take.
    unfold Py.slice_start, Py.len. rewrite Hrw'. lia.
Qed.

End NStepFacts.

(** ** What the n-step loops compute *)

Section NStepValues.

Context {State : Type}.

Lemma getitem_Ok {A : Type} (l : list A) (i : nat) (x : A) :
  Py.getitem l i = Ok x -> l !! i = Some x.
Proof. unfold Py.getitem. destruct (l !! i); [|discriminate]. by intros [= ->]. Qed.

Lemma setitem_Ok {A : Type} (l l' : list A) (i : nat) (x : A) :
  Py.setitem l i x = Ok l' -> (i < length l)%nat /\ l' = <[i:=x]> l.
Proof. unfold Py.setitem. case_decide; [|discriminate]. by intros [= <-]. Qed.

(** The fold at [i] reads the arrays only beyond [i]. *)
Lemma folded_reward_ext (js : list nat) (i : nat) (d : Q) (rw1 rw2 : list Q)
    (tm : list bool) :
  Forall (fun j => rw1 !! (i + j)%nat = rw2 !! (i + j)%nat) js ->
  forall acc, folded_reward js i d rw1 tm acc = folded_reward js i d rw2 tm acc.
Proof.
  induction 1 as [|j js Hj _ IH]; intros acc; simpl; [done|].
  rewrite Hj. destruct (default false (tm !! (i + j)%nat)); [done|]. apply IH.
Qed.

Lemma folded_state_ext (js : list nat) (i : nat) (st1 st2 : list State)
    (tm : list bool) :
  Forall (fun j => st1 !! (i + j)%nat = st2 !! (i + j)%nat) js ->
  forall cur, folded_state js i st1 tm cur = folded_state js i st2 tm cur.
Proof.
  induction 1 as [|j js Hj _ IH]; intros cur; simpl; [done|].
  rewrite Hj. destruct (default false (tm !! (i + j)%nat)); [done|]. apply IH.
Qed.

(** The inner loop writes position [i] only, and what it writes there is the
    fold over the arrays it started from. *)
Lemma n_step_fold_spec (js : list nat) (i : nat) (d : Q) (tm : list bool) :
  Forall (fun j => (1 <= j)%nat) js ->
  forall (st : list State) (rw : list Q) st' rw' si ri,
    st !! i = Some si -> rw !! i = Some ri ->
    n_step_fold js i d st rw tm = Ok (st', rw') ->
    st' = <[i := folded_state js i st tm si]> st
    /\ rw' = <[i := folded_reward js i d rw tm ri]> rw.
Proof.
  induction 1 as [|j js Hj Hjs IH]; intros st rw st' rw' si ri Hsi Hri; simpl.
  - intros [= <- <-]. by rewrite !list_insert_id.
  - destruct (Py.getitem st (i + j)) as [s|] eqn:Hs; [|discriminate]. cbn [bind].
    destruct (Py.setitem st i s) as [st1|] eqn:Hst1; [|discriminate]. cbn [bind].
    destruct (Py.getitem rw i) as [ri'|] eqn:Hri'; [|discriminate]. cbn [bind].
    destruct (Py.getitem rw (i + j)) as [rij|] eqn:Hrij; [|discriminate]. cbn [bind].
    destruct (Py.setitem rw i _) as [rw1|] eqn:Hrw1; [|discriminate]. cbn [bind].
    destruct (Py.getitem tm (i + j)) as [t|] eqn:Ht; [|discriminate]. cbn [bind].
    apply getitem_Ok in Hs, Hri', Hrij, Ht.
    apply setitem_Ok in Hst1 as [Hlt1 ->], Hrw1 as [Hlt2 ->].
    rewrite Hs, Hrij, Ht. simpl. assert (ri' = ri) as -> by congruence.
    destruct t.
    + by intros [= <- <-].
    + intros Hfold.
      eapply IH in Hfold as [-> ->];
        [| by apply list_lookup_insert_eq | by apply list_lookup_insert_eq].
      rewrite !list_insert_insert_eq. split; f_equal.
      * apply folded_state_ext. eapply Forall_impl; [exact Hjs|].
        intros j' Hj'. simpl in Hj'. apply list_lookup_insert_ne. lia.
      * apply folded_reward_ext. eapply Forall_impl; [exact Hjs|].
        intros j' Hj'. simpl in Hj'. apply list_lookup_insert_ne. lia.
Qed.

Lemma range2_from_one (n : Z) : Forall (fun j => (1 <= j)%nat) (Py.range2 1 n).
Proof. apply Forall_forall. intros j Hj. apply elem_of_seq in Hj. lia. Qed.

Lemma adjusted_reward_insert (n : Z) (d : Q) (rw : list Q) (tm : list bool)
    (a i : nat) (x : Q) :
  (a < i)%nat ->
  adjusted_reward n d (<[a:=x]> rw) tm i = adjusted_reward n d rw tm i.
Proof.
  intros Hlt. unfold adjusted_reward.
  rewrite list_lookup_insert_ne by lia. destruct (rw !! i); [|done].
  f_equal. destruct (default false (tm !! i)); [done|].
  apply folded_reward_ext, Forall_forall. intros j _.
  apply list_lookup_insert_ne. lia.
Qed.

Lemma adjusted_state_insert (n : Z) (st : list State) (tm : list bool)
    (a i : nat) (x : State) :
  (a < i)%nat ->
  adjusted_state n (<[a:=x]> st) tm i = adjusted_state n st tm i.
Proof.
  intros Hlt. unfold adjusted_state.
  rewrite list_lookup_insert_ne by lia. destruct (st !! i); [|done].
  f_equal. destruct (default false (tm !! i)); [done|].
  apply folded_state_ext, Forall_forall. intros j _.
  apply list_lookup_insert_ne. lia.
Qed.

(** The outer loop over the positions [a, a+1, ..., a+k-1]: each of them
    ends up with its adjusted entry, every other position is untouched. *)
Lemma n_step_loop_spec (n : Z) (d : Q) (tm : list bool) (k : nat) :
  forall (a : nat) (st : list State) (rw : list Q) st' rw',
    length st = length rw ->
    (a + k <= length rw)%nat ->
    n_step_loop (seq a k) n d st rw tm = Ok (st', rw') ->
    forall i,
      st' !! i = (if decide (a <= i < a + k)%nat then adjusted_state n st tm i
                  else st !! i)
      /\ rw' !! i = (if decide (a <= i < a + k)%nat then adjusted_reward n d rw tm i
                     else rw !! i).
Proof.
  induction k as [|k IH]; intros a st rw st' rw' Hlen Hrange; simpl.
  - intros [= <- <-] i. case_decide; [lia|done].
  - destruct (Py.getitem tm a) as [t|] eqn:Ht; [|discriminate]. cbn [bind].
    apply getitem_Ok in Ht.
    destruct (lookup_lt_is_Some_2 rw a) as [ri Hri]; [lia|].
    destruct (lookup_lt_is_Some_2 st a) as [si Hsi]; [lia|].
    destruct t.
    + intros Hloop i. destruct (IH (S a) st rw st' rw' Hlen ltac:(lia) Hloop i)
        as [Hst Hrw].
      rewrite Hst, Hrw. repeat case_decide; try lia; try done.
      assert (i = a) as -> by lia.
      unfold adjusted_state, adjusted_reward. by rewrite Hsi, Hri, Ht.
    + destruct (n_step_fold _ _ _ _ _ _) as [[st1 rw1]|] eqn:Hfold; [|discriminate].
      cbn [bind fst snd].
      eapply n_step_fold_spec in Hfold as [-> ->]; eauto using range2_from_one.
      intros Hloop i.
      eapply (IH (S a)) with (i := i) in Hloop as [Hst Hrw];
        [| by rewrite !length_insert | rewrite length_insert; lia].
      rewrite Hst, Hrw. repeat case_decide; try lia.
      * by rewrite adjusted_state_insert, adjusted_reward_insert by lia.
      * assert (i = a) as -> by lia.
        rewrite !list_lookup_insert_eq by lia.
        unfold adjusted_state, adjusted_reward. by rewrite Hsi, Hri, Ht.
      * by rewrite !list_lookup_insert_ne by lia.
Qed.

(** The n-step block as a whole, on aligned arrays of length at least
    [n - 1]: [n - 1] entries are cut from the end of each array; every
    reward that is left is the adjusted one; every entry of [states] that is
    left is the adjusted one too, the state up to [n - 1] steps ahead written
    over the transition's own state; actions, next states and terminals are
    as they were. *)
Lemma n_step_adjust_values {Act : Type} (n : Z) (d : Q) (t t' : Trajectory State Act) :
  (1 < n <= Py.len (tr_rewards t) + 1)%Z ->
  length (tr_states t) = length (tr_rewards t) ->
  length (tr_terminals t) = length (tr_rewards t) ->
  n_step_adjust n d t = Ok t' ->
  Py.len (tr_rewards t') = (Py.len (tr_rewards t) - (n - 1))%Z
  /\ forall i,
       (i < length (tr_rewards t'))%nat ->
       tr_rewards t' !! i = adjusted_reward n d (tr_rewards t) (tr_terminals t) i
       /\ tr_states t' !! i = adjusted_state n (tr_states t) (tr_terminals t) i
       /\ tr_actions t' !! i = tr_actions t !! i
       /\ tr_next_states t' !! i = tr_next_states t !! i
       /\ tr_terminals t' !! i = tr_terminals t !! i.
Proof.
  intros Hn Hst Htm. unfold n_step_adjust.
  destruct (n_step_loop _ _ _ _ _ _) as [[st' rw']|] eqn:Hloop; [|discriminate].
  cbn [bind]. intros [= <-]. cbn [tr_states tr_actions tr_rewards tr_next_states tr_terminals].
  unfold Py.range_ in Hloop.
  assert (Hrange : (0 + Z.to_nat (Py.len (tr_rewards t) - n + 1)
                    <= length (tr_rewards t))%nat)
    by (unfold Py.len in *; lia).
  pose proof (n_step_loop_spec n d (tr_terminals t) _ 0 _ _ _ _ Hst Hrange Hloop)
    as Hvalues.
  destruct (n_step_loop_aligned (Py.range_ (Py.len (tr_rewards t) - n + 1)) n d
              (length (tr_rewards t)) (tr_states t) (tr_rewards t) (tr_terminals t))
    as (st1 & rw1 & Hloop1 & Hst1 & Hrw1); auto.
  { apply n_step_positions_in_range. lia. }
  unfold Py.range_ in Hloop1. rewrite Hloop in Hloop1. injection Hloop1 as <- <-.
  assert (Hstart : forall (A : Type) (l : list A),
             Py.slice_start l (Py.len st' - n + 1)
             = Z.to_nat (Py.len (tr_rewards t) - n + 1)).
  { intros A l. unfold Py.slice_start, Py.len in *. rewrite Hst1.
    destruct (Z.ltb_spec (Z.of_nat (length (tr_rewards t)) - n + 1) 0); lia. }
  unfold Py.del_from. rewrite !Hstart.
  split.
  - unfold Py.len in *. rewrite length_take. lia.
  - intros i Hi. rewrite length_take in Hi.
    rewrite !lookup_take_lt by lia.
    destruct (Hvalues i) as [Hs Hr]. rewrite Hs, Hr.
    case_decide; [done | lia].
Qed.

End NStepValues.

(** ** The rollout loops *)

Section WorkerFacts.

Context {Env Agt State Act Blob : Type}.
Context `{!Environment Env State Act} `{!Agent Agt State Act} `{!Arrays State Blob}.

Variable SMALL_NUMBER : Q.

Abbreviation worker := (RayWorker Env Agt State).
Abbreviation locals := (@Locals State Act).
Abbreviation episode := (@Episode State).

Lemma same_config_refl (self : worker) : same_config self self.
Proof. repeat split. Qed.

Lemma same_config_trans (self0 self1 self2 : worker) :
  same_config self0 self1 -> same_config self1 self2 -> same_config self0 self2.
Proof. unfold same_config. intuition congruence. Qed.

Lemma progress_refl (self : worker) (l : locals) : progress self l self l.
Proof. split; [apply same_config_refl | lia..]. Qed.

Lemma progress_trans (self0 self1 self2 : worker) (l0 l1 l2 : locals) :
  progress self0 l0 self1 l1 -> progress self1 l1 self2 l2 ->
  progress self0 l0 self2 l2.
Proof. intros [] []. split; [by eapply same_config_trans | lia..]. Qed.

Section Call.

Variables num_timesteps max_timesteps_per_episode : Z.
Variables use_exploration break_on_terminal : bool.

(** A decision point adds one entry to each list and one to
    [timesteps_executed]; it touches no counter of the worker. *)
Lemma decision_point_spec (self : worker) (l : locals) (ep : episode) :
  forall self1 l1 ep1,
    decision_point use_exploration self l ep = (self1, l1, ep1) ->
    timesteps_executed l1 = (timesteps_executed l + 1)%Z
    /\ l_episodes_executed l1 = l_episodes_executed l
    /\ break_loop l1 = break_loop l
    /\ episodes_executed self1 = episodes_executed self
    /\ episode_rewards self1 = episode_rewards self
    /\ episode_timesteps self1 = episode_timesteps self
    /\ same_config self self1
    /\ (aligned_locals l -> aligned_locals l1).
Proof.
  intros self1 l1 ep1. unfold decision_point.
  destruct (get_action (agent self) (state ep) use_exploration)
    as [agt [action preprocessed_state]].
  destruct (frameskip_loop _ _ _ _ _ _ _) as [[[[env next_state'] reward] terminal'] frames].
  intros [= <- <- <-]. destruct self; simpl.
  repeat split; simpl; try reflexivity; try lia.
  all: unfold aligned_locals, Py.len in *; simpl; rewrite ?length_app; simpl; lia.
Qed.

(** The bookkeeping of a boundary adds one to the call's episode count
    and one entry to each history. *)
Lemma episode_bookkeeping_spec (self : worker) (l : locals) (ep : episode) :
  forall self1 l1,
    episode_bookkeeping break_on_terminal self l ep = (self1, l1) ->
    timesteps_executed l1 = timesteps_executed l
    /\ l_episodes_executed l1 = (l_episodes_executed l + 1)%Z
    /\ episodes_executed self1 = episodes_executed self
    /\ episode_rewards self1 = episode_rewards self ++ [episode_reward ep]
    /\ episode_timesteps self1 = episode_timesteps self ++ [episode_timestep ep]
    /\ break_loop l1 = (terminal ep && break_on_terminal) || break_loop l
    /\ same_config self self1
    /\ (aligned_locals l -> aligned_locals l1).
Proof.
  intros self1 l1. unfold episode_bookkeeping. intros [= <- <-].
  destruct self; simpl.
  repeat match goal with |- _ /\ _ => split end; done.
Qed.


(** The head of the outer loop's body assigns the environment, the agent
    and [last_ep_reward] at most. *)
Lemma episode_start_spec (self : worker) (l : locals) :
  forall self1 ep0,
    episode_start self l = (self1, ep0) ->
    progress self l self1 l /\ terminal ep0 = false.
Proof.
  intros self1 ep0. unfold episode_start.
  destruct (last_terminal self || (0 <? l_episodes_executed l)%Z).
  - destruct (env_reset (environment self)) as [env state0].
    intros [= <- <-]. destruct self; simpl.
    split; [|done]. split; [repeat split | simpl; lia..].
  - intros [= <- <-]. split; [apply progress_refl | done].
Qed.

(** The inner loop ends, on a boundary, within the decision points that
    the budget leaves. [J] is any property of the episode's locals that
    decision points preserve. *)
Lemma episode_loop_spec (J : episode -> Prop) :
  (forall self l ep self1 l1 ep1,
      J ep -> decision_point use_exploration self l ep = (self1, l1, ep1) -> J ep1) ->
  forall (fuel : nat) (self : worker) (l : locals) (ep : episode),
    J ep ->
    (0 <= timesteps_executed l < num_timesteps)%Z ->
    (Z.to_nat (num_timesteps - timesteps_executed l) <= fuel)%nat ->
    exists self' l' ep',
      episode_loop num_timesteps max_timesteps_per_episode use_exploration
        break_on_terminal fuel self l ep = Some (self', l', ep')
      /\ J ep'
      /\ progress self l self' l'
      /\ (timesteps_executed l < timesteps_executed l' <= num_timesteps)%Z
      /\ l_episodes_executed l' = (l_episodes_executed l + 1)%Z
      /\ episode_boundary num_timesteps max_timesteps_per_episode l' ep' = true
      /\ break_loop l' = (terminal ep' && break_on_terminal) || break_loop l
      /\ (aligned_locals l -> aligned_locals l').
Proof.
  intros HJ. induction fuel as [|fuel IH]; intros self l ep Hep Ht Hfuel; [lia|].
  cbn [episode_loop].
  destruct (decision_point use_exploration self l ep) as [[self1 l1] ep1] eqn:Hdp.
  pose proof (HJ _ _ _ _ _ _ Hep Hdp) as Hep1.
  apply decision_point_spec in Hdp
    as (Ht1 & He1 & Hb1 & Hx1 & Hr1 & Hs1 & Hc1 & Ha1).
  destruct (episode_boundary num_timesteps max_timesteps_per_episode l1 ep1) eqn:Hboundary.
  - destruct (episode_bookkeeping break_on_terminal self1 l1 ep1) as [self2 l2] eqn:Hbk.
    apply episode_bookkeeping_spec in Hbk
      as (Ht2 & He2 & Hx2 & Hr2 & Hs2 & Hb2 & Hc2 & Ha2).
    exists self2, l2, ep1.
    repeat match goal with |- _ /\ _ => split end; auto; try lia.
    + split; [by eapply same_config_trans | try lia..].
      * rewrite Hr2, Hr1. unfold Py.len. rewrite length_app. simpl. lia.
      * rewrite Hs2, Hs1. unfold Py.len. rewrite length_app. simpl. lia.
    + unfold episode_boundary in *. by rewrite Ht2.
    + by rewrite Hb2, Hb1.
  - assert (Hlt : (timesteps_executed l1 < num_timesteps)%Z).
    { unfold episode_boundary in Hboundary.
      apply orb_false_elim in Hboundary as [Hboundary _].
      apply orb_false_elim in Hboundary as [_ Hboundary].
      apply andb_false_iff in Hboundary as [Hboundary|Hboundary]; lia. }
    destruct (IH (set_episodes_executed self1 (episodes_executed self1 + 1)) l1 ep1)
      as (self' & l' & ep' & Hloop & HJ' & Hp & Ht' & He' & Hb' & Hbr' & Ha');
      [assumption | lia | lia |].
    exists self', l', ep'.
    repeat match goal with |- _ /\ _ => split end; auto; try lia.
    + eapply progress_trans; [|exact Hp].
      destruct self1; simpl in *; subst. split; simpl; [assumption | lia..].
    + by rewrite Hbr', Hb1.
Qed.

(** The outer loop ends within [num_timesteps] decision points. *)
Lemma rollout_loop_spec :
  forall (fuel : nat) (self : worker) (l : locals) (bound : option episode),
    (0 <= timesteps_executed l)%Z ->
    (Z.to_nat (num_timesteps - timesteps_executed l) < fuel)%nat ->
    exists self' l' bound',
      rollout_loop num_timesteps max_timesteps_per_episode use_exploration
        break_on_terminal fuel self l bound = Some (self', l', bound')
      /\ progress self l self' l'
      /\ (aligned_locals l -> aligned_locals l')
      /\ (timesteps_executed l' <= Z.max num_timesteps (timesteps_executed l))%Z
      /\ (if (timesteps_executed l <? num_timesteps)%Z
          then (timesteps_executed l < timesteps_executed l')%Z
               /\ (l_episodes_executed l < l_episodes_executed l')%Z
               /\ exists ep, bound' = Some ep
          else bound' = bound /\ self' = self /\ l' = l).
Proof.
  induction fuel as [|fuel IH]; intros self l bound Ht Hfuel; [lia|].
  cbn [rollout_loop]. destruct (Z.ltb_spec (timesteps_executed l) num_timesteps) as [Hlt|Hge].
  - destruct (episode_start self l) as [self1 ep0] eqn:Hstart.
    apply episode_start_spec in Hstart as [Hp1 _].
    destruct (episode_loop_spec (fun _ => True) ltac:(auto) fuel self1 l ep0)
      as (self2 & l2 & ep2 & -> & _ & Hp2 & Ht2 & He2 & _ & _ & Ha2);
      [exact I | lia | lia |].
    destruct (break_loop l2).
    + exists self2, l2, (Some ep2).
      repeat match goal with |- _ /\ _ => split end; eauto; try lia.
      eapply progress_trans; eauto.
    + destruct (IH self2 l2 (Some ep2)) as (self' & l' & bound' & -> & Hp & Ha & Hle & Hb);
        [lia | lia |].
      exists self', l', bound'.
      repeat match goal with |- _ /\ _ => split end; auto; try lia.
      * eapply progress_trans; [|exact Hp]. eapply progress_trans; eauto.
      * destruct Hp. lia.
      * destruct Hp. lia.
      * destruct (Z.ltb_spec (timesteps_executed l2) num_timesteps).
        -- destruct Hb as (_ & _ & Hb). exact Hb.
        -- destruct Hb as [-> _]. eauto.
  - exists self, l, bound.
    repeat match goal with |- _ /\ _ => split end; auto; try lia.
    apply progress_refl.
Qed.


(** Without a terminal from the environment, the frameskip loop leaves
    [terminal] false. *)
Lemma frameskip_loop_never_terminal (k : nat) (action : Act) :
  never_terminal ->
  forall (env : Env) (next_state_ : State) (reward : Q) (frames : Z),
    (frameskip_loop k env action next_state_ reward false frames).1.2 = false.
Proof.
  intros Hnever. induction k as [|k IH]; intros env next_state_ reward frames.
  - reflexivity.
  - cbn [frameskip_loop]. specialize (Hnever env action).
    destruct (env_step env action) as [env' [[next_state' step_reward] terminal']].
    simpl in Hnever. subst terminal'. apply IH.
Qed.

Lemma decision_point_never_terminal :
  never_terminal ->
  forall (self : worker) (l : locals) (ep : episode) self1 l1 ep1,
    terminal ep = false ->
    decision_point use_exploration self l ep = (self1, l1, ep1) ->
    terminal ep1 = false.
Proof.
  intros Hnever self l ep self1 l1 ep1 Hep. unfold decision_point.
  destruct (get_action (agent self) (state ep) use_exploration)
    as [agt [action preprocessed_state]].
  rewrite Hep.
  pose proof (frameskip_loop_never_terminal (Z.to_nat (worker_frameskip self))
                action Hnever (environment self) (next_state l) 0%Q (env_frames l))
    as Hloop.
  destruct (frameskip_loop _ _ _ _ _ _ _)
    as [[[[env next_state'] reward] terminal'] frames].
  simpl in Hloop. intros [= <- <- <-]. exact Hloop.
Qed.

(** With no terminal and no cap on the episode, a call that starts from
    scratch makes one episode of its whole budget. *)
Lemma rollout_loop_never_terminal (self : worker) (l : locals) :
  never_terminal ->
  (max_timesteps_per_episode <= 0)%Z ->
  (0 < num_timesteps)%Z ->
  timesteps_executed l = 0%Z ->
  break_loop l = false ->
  exists self' l' ep',
    rollout_loop num_timesteps max_timesteps_per_episode use_exploration
      break_on_terminal (S (Z.to_nat num_timesteps)) self l None
    = Some (self', l', Some ep')
    /\ progress self l self' l'
    /\ (aligned_locals l -> aligned_locals l')
    /\ timesteps_executed l' = num_timesteps
    /\ l_episodes_executed l' = (l_episodes_executed l + 1)%Z
    /\ terminal ep' = false.
Proof.
  intros Hnever Hmax Hnum Ht Hbreak. cbn [rollout_loop].
  destruct (Z.ltb_spec (timesteps_executed l) num_timesteps) as [_|]; [|lia].
  destruct (episode_start self l) as [self1 ep0] eqn:Hstart.
  apply episode_start_spec in Hstart as [Hp1 Hep0].
  destruct (episode_loop_spec (fun ep => terminal ep = false)
              (decision_point_never_terminal Hnever)
              (Z.to_nat num_timesteps) self1 l ep0)
    as (self2 & l2 & ep2 & -> & Hep2 & Hp2 & Ht2 & He2 & Hboundary & Hbreak2 & Ha2);
    [assumption | lia | lia |].
  assert (Hend : timesteps_executed l2 = num_timesteps).
  { unfold episode_boundary in Hboundary. rewrite Hep2 in Hboundary.
    simpl in Hboundary. apply orb_true_iff in Hboundary as [Hb|Hb].
    - apply andb_true_iff in Hb. lia.
    - apply andb_true_iff in Hb. lia. }
  rewrite Hbreak2, Hep2, Hbreak. simpl.
  destruct (rollout_loop_spec (Z.to_nat num_timesteps) self2 l2 (Some ep2))
    as (self' & l' & bound' & -> & _ & _ & _ & Hb); [lia | lia |].
  destruct (Z.ltb_spec (timesteps_executed l2) num_timesteps); [lia|].
  destruct Hb as (-> & -> & ->).
  exists self2, l2, ep2.
  repeat match goal with |- _ /\ _ => split end; auto.
  eapply progress_trans; eauto.
Qed.

End Call.

(** *** The post-processor inside a call *)

Lemma n_step_correction_aligned (self : worker) (t : Trajectory State Act) :
  length (tr_states t) = length (tr_rewards t) ->
  length (tr_actions t) = length (tr_rewards t) ->
  length (tr_terminals t) = length (tr_rewards t) ->
  exists t',
    n_step_correction self t = Ok t'
    /\ length (tr_states t') = length (tr_rewards t')
    /\ length (tr_actions t') = length (tr_rewards t')
    /\ length (tr_terminals t') = length (tr_rewards t')
    /\ ((n_step_adjustment self <= 1)%Z -> t' = t).
Proof.
  intros Hst Hac Htm. unfold n_step_correction.
  destruct (Z.ltb_spec 1 (n_step_adjustment self)) as [Hn|Hn].
  - destruct (n_step_adjust_aligned (n_step_adjustment self) (discount self) t)
      as (t' & -> & Hst' & Hac' & Htm' & _); auto; [lia|].
    exists t'. repeat split; auto. lia.
  - exists t. repeat split; auto.
Qed.

Lemma process_sample_spec (self : worker) (t : Trajectory State Act) :
  length (tr_states t) = length (tr_rewards t) ->
  length (tr_actions t) = length (tr_rewards t) ->
  length (tr_terminals t) = length (tr_rewards t) ->
  exists agt b size,
    _process_sample_if_necessary SMALL_NUMBER self t = Ok (set_agent self agt, (b, size))
    /\ Py.len (states b) = size
    /\ Py.len (actions b) = size
    /\ Py.len (rewards b) = size
    /\ Py.len (terminals b) = size
    /\ (worker_computes_weights self = false \/ per_item_loss_aligned ->
        Py.len (importance_weights b) = size)
    /\ ((n_step_adjustment self <= 1)%Z -> size = Py.len (tr_rewards t)).
Proof.
  intros Hst Hac Htm. unfold _process_sample_if_necessary.
  destruct (n_step_correction_aligned self t Hst Hac Htm)
    as (t' & -> & Hst' & Hac' & Htm' & Hsame).
  cbn [bind].
  destruct (worker_computes_weights self) eqn:Hweights.
  - destruct (agent_update _ _) as [agt loss_per_item] eqn:Hupdate.
    do 3 eexists. split; [reflexivity|]. unfold Py.len. simpl.
    rewrite length_map.
    repeat match goal with |- _ /\ _ => split end; try congruence.
    + intros [|Haligned]; [done|].
      specialize (Haligned (agent self)
        (mkUpdateBatch (tr_states t') (tr_actions t') (tr_rewards t')
           (tr_terminals t') (tr_next_states t') (Np.ones_like (tr_rewards t')))).
      rewrite Hupdate in Haligned. simpl in Haligned. rewrite length_map. lia.
    + intros Hn. by rewrite (Hsame Hn).
  - do 3 eexists. split; [reflexivity|]. unfold Py.len, Np.ones_like. simpl.
    rewrite !length_map.
    repeat match goal with |- _ /\ _ => split end; try congruence.
    intros Hn. by rewrite (Hsame Hn).
Qed.

(** *** After the loops *)

Lemma finish_call_spec (self : worker) (l : locals) (ep : episode) (start stop : Q) :
  aligned_locals l ->
  exists self' sample,
    finish_call SMALL_NUMBER self l ep start stop = (self', Ok sample)
    /\ same_config self self'
    /\ episodes_executed self' = episodes_executed self
    /\ episode_rewards self' = episode_rewards self
    /\ episode_timesteps self' = episode_timesteps self
    /\ last_terminal self' = terminal ep
    /\ last_ep_reward self' = episode_reward ep
    /\ m_timesteps_executed (metrics sample) = timesteps_executed l
    /\ Py.len (states (sample_batch sample)) = batch_size sample
    /\ Py.len (actions (sample_batch sample)) = batch_size sample
    /\ Py.len (rewards (sample_batch sample)) = batch_size sample
    /\ Py.len (terminals (sample_batch sample)) = batch_size sample
    /\ (worker_computes_weights self = false \/ per_item_loss_aligned ->
        Py.len (importance_weights (sample_batch sample)) = batch_size sample)
    /\ ((n_step_adjustment self <= 1)%Z -> batch_size sample = timesteps_executed l).
Proof.
  intros (Hst & Hac & Hrw & Htm). unfold finish_call.
  destruct (if terminal ep then _ else _) as [agt preprocessed_state].
  lazymatch goal with
  | |- context [_process_sample_if_necessary _ ?self3 ?t] =>
      destruct (process_sample_spec self3 t)
        as (agt' & b & size & -> & Hb1 & Hb2 & Hb3 & Hb4 & Hw & Hsize)
  end.
  1-3: unfold Py.len in *; simpl; lia.
  do 2 eexists. split; [reflexivity|].
  destruct self; simpl in *.
  repeat match goal with |- _ /\ _ => split end; auto.
  - repeat split.
  - intros Hn. rewrite (Hsize Hn). exact Hrw.
Qed.

Section Executed.

Variables num_timesteps max_timesteps_per_episode : Z.
Variables use_exploration break_on_terminal : bool.

(** A call with a positive budget returns a sample; what it has done to
    the worker is measured against the sample's own metrics. *)
Lemma execute_spec (self : worker) (start stop : Q) :
  (0 < num_timesteps)%Z ->
  exists self' sample,
    execute_and_get_timesteps SMALL_NUMBER num_timesteps max_timesteps_per_episode
      use_exploration break_on_terminal self start stop
    = Some (self', Ok sample)
    /\ same_config self self'
    /\ (0 < m_timesteps_executed (metrics sample) <= num_timesteps)%Z
    /\ (0 < Py.len (episode_rewards self') - Py.len (episode_rewards self))%Z
    /\ (Py.len (episode_timesteps self') - Py.len (episode_timesteps self)
        = Py.len (episode_rewards self') - Py.len (episode_rewards self))%Z
    /\ (episodes_executed self' - episodes_executed self
        = m_timesteps_executed (metrics sample)
          - (Py.len (episode_rewards self') - Py.len (episode_rewards self)))%Z
    /\ Py.len (states (sample_batch sample)) = batch_size sample
    /\ Py.len (actions (sample_batch sample)) = batch_size sample
    /\ Py.len (rewards (sample_batch sample)) = batch_size sample
    /\ Py.len (terminals (sample_batch sample)) = batch_size sample
    /\ (worker_computes_weights self = false \/ per_item_loss_aligned ->
        Py.len (importance_weights (sample_batch sample)) = batch_size sample)
    /\ ((n_step_adjustment self <= 1)%Z ->
        batch_size sample = m_timesteps_executed (metrics sample)).
Proof.
  intros Hnum. unfold execute_and_get_timesteps, execute_and_get_timesteps_fuel.
  destruct (rollout_loop_spec num_timesteps max_timesteps_per_episode
              use_exploration break_on_terminal (S (Z.to_nat num_timesteps))
              self (initial_locals self) None)
    as (self1 & l1 & bound & -> & Hp & Ha & Hle & Hb); [simpl; lia | simpl; lia |].
  simpl in Hb, Hle.
  destruct (Z.ltb_spec 0 num_timesteps) as [_|]; [|lia].
  destruct Hb as (Ht & He & ep & ->).
  destruct (finish_call_spec self1 l1 ep start stop)
    as (self' & sample & -> & Hc & Hx & Hr & Hs & _ & _ & Hm & Hb1 & Hb2 & Hb3 & Hb4
        & Hw & Hsize).
  { apply Ha. repeat split. }
  destruct Hp as [Hc1 _ _ Hcount Hrewards Htimesteps]. simpl in *.
  exists self', sample.
  assert (Hn : n_step_adjustment self1 = n_step_adjustment self) by apply Hc1.
  assert (Hcw : worker_computes_weights self1 = worker_computes_weights self)
    by apply Hc1.
  rewrite Hn, Hcw in *. rewrite Hm, Hx, Hr, Hs.
  repeat match goal with |- _ /\ _ => split end; auto; try lia.
  by eapply same_config_trans.
Qed.

End Executed.

End WorkerFacts.

(** ** The worker's calls *)

Section WorkerProperties.

Context {Env Agt State Act Blob : Type}.
Context `{!Environment Env State Act} `{!Agent Agt State Act} `{!Arrays State Blob}.

Variable SMALL_NUMBER : Q.

Abbreviation worker := (RayWorker Env Agt State).

(** The call is a function of its inputs and never runs out of fuel: with
    a budget that is not positive the outer loop is skipped and reading
    [terminal] raises. *)
Lemma execute_without_budget (num_timesteps max_timesteps_per_episode : Z)
    (use_exploration break_on_terminal : bool) (self : worker) (start stop : Q) :
  (num_timesteps <= 0)%Z ->
  execute_and_get_timesteps SMALL_NUMBER num_timesteps max_timesteps_per_episode
    use_exploration break_on_terminal self start stop
  = Some (self, Raise UnboundLocalError).
Proof.
  intros Hnum. unfold execute_and_get_timesteps, execute_and_get_timesteps_fuel.
  cbn [rollout_loop initial_locals timesteps_executed].
  destruct (Z.ltb_spec 0 num_timesteps); [lia | reflexivity].
Qed.

(** A call that follows a non-terminal stop begins on the continuation
    branch: no reset, and the episode's locals are read from the three
    stored attributes. *)
Lemma episode_start_continues (self : worker) (l : @Locals State Act) :
  last_terminal self = false ->
  (l_episodes_executed l <= 0)%Z ->
  episode_start self l
  = (self,
     {| state := last_state self;
        episode_reward := last_ep_reward self;
        episode_timestep := last_ep_timestep self;
        terminal := false |}).
Proof.
  intros Hlast Hnone. unfold episode_start. rewrite Hlast.
  destruct (Z.ltb_spec 0 (l_episodes_executed l)); [lia | reflexivity].
Qed.

(** No call assigns [self.last_state] or [self.last_ep_timestep]: after any
    call they hold what the constructor put there. *)
Lemma execute_keeps_last_state (num_timesteps max_timesteps_per_episode : Z)
    (use_exploration break_on_terminal : bool) (self : worker) (start stop : Q) :
  forall self' outcome,
    execute_and_get_timesteps SMALL_NUMBER num_timesteps max_timesteps_per_episode
      use_exploration break_on_terminal self start stop
    = Some (self', outcome) ->
    last_state self' = last_state self
    /\ last_ep_timestep self' = last_ep_timestep self.
Proof.
  intros self' outcome Hcall.
  destruct (Z.lt_ge_cases 0 num_timesteps) as [Hnum|Hnum].
  - destruct (execute_spec SMALL_NUMBER num_timesteps max_timesteps_per_episode
                use_exploration break_on_terminal self start stop Hnum)
      as (self1 & sample & Hcall' & Hc & _).
    rewrite Hcall' in Hcall. injection Hcall as <- _.
    split; apply Hc.
  - rewrite execute_without_budget in Hcall by assumption.
    by injection Hcall as <- _.
Qed.

(** C5. Every sample batch that a call produces has its five arrays
    (states, actions, rewards, terminals, importance weights) of one
    length, the batch size reported with it, whatever the budget, the
    frameskip, the terminals of the environment and the n-step adjustment;
    and a call with a positive budget does produce one. The agent is held
    to its contract: one per-item loss for each transition. *)
Theorem sample_batch_arrays_aligned
    (num_timesteps max_timesteps_per_episode : Z)
    (use_exploration break_on_terminal : bool) (self : worker) (start stop : Q) :
  per_item_loss_aligned ->
  ((0 < num_timesteps)%Z ->
   exists self' sample,
     execute_and_get_timesteps SMALL_NUMBER num_timesteps max_timesteps_per_episode
       use_exploration break_on_terminal self start stop
     = Some (self', Ok sample))
  /\ (forall self' sample,
        execute_and_get_timesteps SMALL_NUMBER num_timesteps
          max_timesteps_per_episode use_exploration break_on_terminal self start stop
        = Some (self', Ok sample) ->
        aligned_batch (sample_batch sample) (batch_size sample)).
Proof.
  intros Hloss. split.
  - intros Hnum.
    destruct (execute_spec SMALL_NUMBER num_timesteps max_timesteps_per_episode
                use_exploration break_on_terminal self start stop Hnum)
      as (self' & sample & Hcall & _).
    eauto.
  - intros self' sample Hcall.
    destruct (Z.lt_ge_cases 0 num_timesteps) as [Hnum|Hnum].
    + destruct (execute_spec SMALL_NUMBER num_timesteps max_timesteps_per_episode
                  use_exploration break_on_terminal self start stop Hnum)
        as (self1 & sample1 & Hcall' & _ & _ & _ & _ & _ & H1 & H2 & H3 & H4 & Hw & _).
      rewrite Hcall' in Hcall. injection Hcall as <- <-.
      repeat split; auto.
    + rewrite execute_without_budget in Hcall by assumption. discriminate.
Qed.

(** C10. A call adds to [self.episodes_executed], the value that
    [get_workload_statistics] reports as [episodes_executed], one for every
    decision point that is not an episode boundary and nothing for a
    boundary: with T decision points in the call and B boundaries (each
    boundary, and nothing else, appends one entry to the episode
    histories), the counter grows by T - B; by T - 1 when the only boundary
    is the last step. *)
Theorem episodes_executed_counts_non_boundary_steps
    (num_timesteps max_timesteps_per_episode : Z)
    (use_exploration break_on_terminal : bool) (self : worker) (start stop : Q) :
  (0 < num_timesteps)%Z ->
  exists self' sample,
    execute_and_get_timesteps SMALL_NUMBER num_timesteps max_timesteps_per_episode
      use_exploration break_on_terminal self start stop
    = Some (self', Ok sample)
    /\ let T := m_timesteps_executed (metrics sample) in
       let B := (Py.len (episode_rewards self') - Py.len (episode_rewards self))%Z in
       episodes_executed self' = (episodes_executed self + (T - B))%Z
       /\ (B = 1%Z -> episodes_executed self' = (episodes_executed self + (T - 1))%Z)
       /\ (forall stats,
             get_workload_statistics self' = Ok stats ->
             ws_episodes_executed stats = (episodes_executed self + (T - B))%Z).
Proof.
  intros Hnum.
  destruct (execute_spec SMALL_NUMBER num_timesteps max_timesteps_per_episode
              use_exploration break_on_terminal self start stop Hnum)
    as (self' & sample & Hcall & _ & _ & _ & _ & Hcount & _).
  exists self', sample. split; [exact Hcall|]. cbv zeta.
  assert (Hx : episodes_executed self'
               = (episodes_executed self
                  + (m_timesteps_executed (metrics sample)
                     - (Py.len (episode_rewards self') - Py.len (episode_rewards self))))%Z)
    by lia.
  repeat split.
  - exact Hx.
  - intros HB. rewrite HB in Hx. exact Hx.
  - intros stats Hstats. unfold get_workload_statistics in Hstats.
    destruct (Np.min _); [|discriminate]. destruct (Np.max _); [|discriminate].
    destruct (Py.last_item _); [|discriminate].
    cbn [bind] in Hstats.
    destruct (truediv _ _); [|discriminate]. cbn [bind] in Hstats.
    destruct (truediv _ _); [|discriminate]. cbn [bind] in Hstats.
    injection Hstats as <-. exact Hx.
Qed.

(** With no terminal from the environment and no cap on the episode, the
    whole budget is one episode: the call books exactly one boundary, at its
    last decision point, and leaves [last_terminal] false. *)
Lemma execute_never_terminal (num_timesteps max_timesteps_per_episode : Z)
    (use_exploration break_on_terminal : bool) (self : worker) (start stop : Q) :
  never_terminal ->
  (max_timesteps_per_episode <= 0)%Z ->
  (0 < num_timesteps)%Z ->
  exists self' sample,
    execute_and_get_timesteps SMALL_NUMBER num_timesteps max_timesteps_per_episode
      use_exploration break_on_terminal self start stop
    = Some (self', Ok sample)
    /\ m_timesteps_executed (metrics sample) = num_timesteps
    /\ Py.len (episode_rewards self') = (Py.len (episode_rewards self) + 1)%Z
    /\ Py.len (episode_timesteps self') = (Py.len (episode_timesteps self) + 1)%Z
    /\ last_terminal self' = false
    /\ Py.len (states (sample_batch sample)) = batch_size sample
    /\ Py.len (actions (sample_batch sample)) = batch_size sample
    /\ Py.len (rewards (sample_batch sample)) = batch_size sample
    /\ Py.len (terminals (sample_batch sample)) = batch_size sample
    /\ ((n_step_adjustment self <= 1)%Z -> batch_size sample = num_timesteps).
Proof.
  intros Hnever Hmax Hnum.
  unfold execute_and_get_timesteps, execute_and_get_timesteps_fuel.
  destruct (rollout_loop_never_terminal num_timesteps max_timesteps_per_episode
              use_exploration break_on_terminal self (initial_locals self)
              Hnever Hmax Hnum eq_refl eq_refl)
    as (self1 & l1 & ep1 & -> & Hp & Ha & Ht & He & Hterminal).
  destruct (finish_call_spec SMALL_NUMBER self1 l1 ep1 start stop)
    as (self' & sample & -> & Hc & Hx & Hr & Hs & Hlast & _ & Hm & Hb1 & Hb2 & Hb3 & Hb4
        & _ & Hsize).
  { apply Ha. repeat split. }
  destruct Hp as [Hc1 _ _ _ Hrewards Htimesteps]. simpl in *.
  assert (Hn : n_step_adjustment self1 = n_step_adjustment self) by apply Hc1.
  rewrite Hn in Hsize.
  exists self', sample. rewrite Hm, Hr, Hs, Hlast.
  repeat match goal with |- _ /\ _ => split end; auto; lia.
Qed.

(** C2, as the code has it. On a worker with frameskip 1 and n-step
    adjustment 1 whose environment never reports a terminal, the call
    [execute_and_get_timesteps(10, 0, break_on_terminal=False)] returns a
    sample of exactly 10 decision points and leaves [last_terminal] false;
    reaching the budget at the tenth step is an episode boundary, so exactly
    one entry is appended to the episode-reward history and one to the
    episode-timestep history. *)
Theorem ten_steps_without_terminal (use_exploration : bool) (self : worker)
    (start stop : Q) :
  never_terminal ->
  worker_frameskip self = 1%Z ->
  n_step_adjustment self = 1%Z ->
  exists self' sample,
    execute_and_get_timesteps SMALL_NUMBER 10 0 use_exploration false self start stop
    = Some (self', Ok sample)
    /\ batch_size sample = 10%Z
    /\ Py.len (states (sample_batch sample)) = 10%Z
    /\ Py.len (actions (sample_batch sample)) = 10%Z
    /\ Py.len (rewards (sample_batch sample)) = 10%Z
    /\ Py.len (terminals (sample_batch sample)) = 10%Z
    /\ m_timesteps_executed (metrics sample) = 10%Z
    /\ Py.len (episode_rewards self') = (Py.len (episode_rewards self) + 1)%Z
    /\ Py.len (episode_timesteps self') = (Py.len (episode_timesteps self) + 1)%Z
    /\ last_terminal self' = false.
Proof.
  intros Hnever _ Hn.
  destruct (execute_never_terminal 10 0 use_exploration false self start stop Hnever)
    as (self' & sample & Hcall & Hm & Hr & Hs & Hlast & H1 & H2 & H3 & H4 & Hsize);
    [lia | lia |].
  assert (Hsize' : batch_size sample = 10%Z) by (apply Hsize; lia).
  rewrite Hsize' in *.
  exists self', sample. repeat match goal with |- _ /\ _ => split end; auto.
Qed.

(** C4. With [num_timesteps=0] the outer loop [while timesteps_executed <
    num_timesteps] is never entered, whatever [break_on_terminal] is: no
    step is taken, the worker is left as it was, and the read of the
    unbound [terminal] after the loop raises [UnboundLocalError]. *)
Theorem zero_timesteps_raises_unbound_local (max_timesteps_per_episode : Z)
    (use_exploration break_on_terminal : bool) (self : worker) (start stop : Q) :
  execute_and_get_timesteps SMALL_NUMBER 0 max_timesteps_per_episode use_exploration
    break_on_terminal self start stop
  = Some (self, Raise UnboundLocalError).
Proof. reflexivity. Qed.

(** C7. With n-step adjustment 1 the n-step block is skipped: the
    trajectory that reaches the weight computation is the raw one, next
    states included, and the batch holds the raw actions, rewards and
    terminals and the (compressed) raw states, none truncated. *)
Theorem n_step_one_leaves_trajectory_unchanged (self : worker)
    (t : Trajectory State Act) :
  n_step_adjustment self = 1%Z ->
  n_step_correction self t = Ok t
  /\ exists agt weights,
       _process_sample_if_necessary SMALL_NUMBER self t
       = Ok (set_agent self agt,
             ({| states := map ray_compress (tr_states t);
                 actions := tr_actions t;
                 rewards := tr_rewards t;
                 terminals := tr_terminals t;
                 importance_weights := weights |},
              Py.len (tr_rewards t))).
Proof.
  intros Hn.
  assert (Hskip : n_step_correction self t = Ok t).
  { unfold n_step_correction. by rewrite Hn. }
  split; [exact Hskip|].
  unfold _process_sample_if_necessary. rewrite Hskip. cbn [bind].
  destruct (worker_computes_weights self).
  - destruct (agent_update _ _) as [agt loss_per_item]. eauto.
  - eauto.
Qed.

(** C8. On a worker whose episode-reward history is empty,
    [get_workload_statistics] returns no aggregate at all: [np.min] of the
    empty history raises [ValueError]. *)
Theorem workload_statistics_fail_without_episodes (self : worker) :
  episode_rewards self = [] ->
  get_workload_statistics self = Raise ValueError.
Proof. intros Hempty. unfold get_workload_statistics. by rewrite Hempty. Qed.

(** C6. With n-step adjustment 3 and discount 0.9 (rewards and discount
    as exact rationals), the post-processor turns a trajectory of 5
    transitions with rewards [1,1,1,1,1] and no terminal into one whose
    reward at index 0 is 1 + 0.9*1 + 0.81*1 = 2.71, and every array, the
    five of the trajectory and the five of the batch, is cut to length
    5-3+1 = 3 (the importance weights under the agent's contract, when the
    worker asks the agent for them). *)
Theorem n_step_three_on_unit_rewards (self : worker) (t : Trajectory State Act) :
  n_step_adjustment self = 3%Z ->
  discount self = (9 # 10)%Q ->
  length (tr_states t) = 5%nat ->
  length (tr_actions t) = 5%nat ->
  length (tr_next_states t) = 5%nat ->
  tr_rewards t = [1; 1; 1; 1; 1]%Q ->
  tr_terminals t = [false; false; false; false; false] ->
  exists t' agt b r0 rest,
    n_step_correction self t = Ok t'
    /\ _process_sample_if_necessary SMALL_NUMBER self t
       = Ok (set_agent self agt, (b, 3%Z))
    /\ rewards b = r0 :: rest
    /\ (r0 == 271 # 100)%Q
    /\ (1 + (9 # 10) * 1 + (81 # 100) * 1 == 271 # 100)%Q
    /\ length (tr_states t') = 3%nat
    /\ length (tr_actions t') = 3%nat
    /\ length (tr_rewards t') = 3%nat
    /\ length (tr_next_states t') = 3%nat
    /\ length (tr_terminals t') = 3%nat
    /\ length (states b) = 3%nat
    /\ length (actions b) = 3%nat
    /\ length (rewards b) = 3%nat
    /\ length (terminals b) = 3%nat
    /\ (worker_computes_weights self = false \/ per_item_loss_aligned ->
        length (importance_weights b) = 3%nat).
Proof.
  intros Hn Hd Hst Hac Hns Hrw Htm.
  destruct t as [st ac rw ns tm]. simpl in *. subst rw tm.
  destruct st as [|s0 [|s1 [|s2 [|s3 [|s4 [|]]]]]]; try discriminate.
  destruct ac as [|a0 [|a1 [|a2 [|a3 [|a4 [|]]]]]]; try discriminate.
  destruct ns as [|n0 [|n1 [|n2 [|n3 [|n4 [|]]]]]]; try discriminate.
  unfold _process_sample_if_necessary, n_step_correction. rewrite Hn, Hd.
  change (1 <? 3)%Z with true. cbv iota.
  set (adjusted := n_step_adjust _ _ _). vm_compute in adjusted. subst adjusted.
  cbn [bind tr_states tr_actions tr_rewards tr_next_states tr_terminals].
  destruct (worker_computes_weights self) eqn:Hweights.
  - destruct (agent_update _ _) as [agt loss_per_item] eqn:Hupdate.
    do 5 eexists.
    repeat match goal with |- _ /\ _ => split end; try reflexivity.
    intros [|Haligned]; [done|]. simpl. rewrite length_map.
    match type of Hupdate with
    | agent_update ?a ?b = _ => specialize (Haligned a b)
    end.
    rewrite Hupdate in Haligned. exact Haligned.
  - do 5 eexists.
    repeat match goal with |- _ /\ _ => split end; reflexivity.
Qed.

End WorkerProperties.

(** ** The n-step block and the next states *)

(** The n-step block never writes to [next_states]: what it returns there is
    a prefix of what it was given. *)
Lemma n_step_adjust_next_states {State Act : Type} (n : Z) (d : Q)
    (t t' : Trajectory State Act) :
  n_step_adjust n d t = Ok t' ->
  exists k : nat, tr_next_states t' = take k (tr_next_states t).
Proof.
  unfold n_step_adjust. destruct (n_step_loop _ _ _ _ _ _) as [[st rw]|]; [|discriminate].
  cbn [bind]. intros [= <-]. simpl. unfold Py.del_from. eauto.
Qed.

(** C3. On the three transitions with states 0, 1, 2 and next states 1, 2, 3,
    with n-step adjustment 2, the block folds the rewards (1 + 0.9 = 1.9) and
    cuts every array to length 2, but it writes the state one step ahead over
    the transition's OWN state ([states] becomes 1, 2) and leaves the
    recorded next states as they were (1, 2, not the states 2 and 3 that lie
    two steps ahead). *)
Theorem n_step_overwrites_states_not_next_states :
  n_step_adjust 2 (9 # 10) Counting.three_steps
  = Ok (mkTrajectory [1; 2]%nat [tt; tt] [19 # 10; 19 # 10]%Q [1; 2]%nat
          [false; false]).
Proof. vm_compute. reflexivity. Qed.

(** ** Two calls in a row *)

(** C1. A fresh worker on the endless environment, two calls of two steps
    each. The first call stops on a non-terminal state: the environment has
    moved to observation 2, yet [last_state] and [last_ep_timestep] still
    hold the constructor's 0 and only [last_ep_reward] is carried over. The
    second call does take the continuation branch, without a reset, but from
    those attributes: its first decision is made on the stale observation 0,
    and it books an episode of 2 timesteps with the reward of 4. *)
Theorem continuation_restarts_from_constructor_state :
  exists w1 s1 w2 s2,
    execute_and_get_timesteps Counting.small 2 0 true false
      (Counting.fresh_endless false 1 (99 # 100) 1) 0 1
    = Some (w1, Ok s1)
    /\ last_terminal w1 = false
    /\ environment w1 = 2%nat
    /\ last_state w1 = 0%nat
    /\ last_ep_timestep w1 = 0%Z
    /\ last_ep_reward w1 = 2%Q
    /\ execute_and_get_timesteps Counting.small 2 0 true false w1 1 2
       = Some (w2, Ok s2)
    /\ states (sample_batch s2) = [0; 3]%nat
    /\ environment w2 = 4%nat
    /\ episode_timesteps w2 = [2; 2]%Z
    /\ episode_rewards w2 = [2; 4]%Q.
Proof.
  do 4 eexists.
  split; [vm_compute; reflexivity|].
  do 5 (split; [reflexivity|]).
  split; [vm_compute; reflexivity|].
  repeat split.
Qed.

(** ** Witnesses on the counting environment *)

Lemma plain_agent_loss_aligned :
  per_item_loss_aligned (Agt := unit) (State := nat) (Act := unit).
Proof. intros a b. simpl. apply length_map. Defined.

Lemma endless_never_terminal :
  never_terminal (Env := nat) (State := nat) (Act := unit).
Proof. intros e a. reflexivity. Defined.

Lemma sample_batch_arrays_aligned_witness :
  per_item_loss_aligned (Agt := unit) (State := nat) (Act := unit)
  /\ (((0 < 7)%Z ->
       exists self' sample,
         execute_and_get_timesteps Counting.small 7 0 true false
           (Counting.fresh 3 true 2 (9 # 10) 2) 0 1
         = Some (self', Ok sample))
      /\ (forall self' sample,
            execute_and_get_timesteps Counting.small 7 0 true false
              (Counting.fresh 3 true 2 (9 # 10) 2) 0 1
            = Some (self', Ok sample) ->
            aligned_batch (sample_batch sample) (batch_size sample))).
Proof.
  split; [exact plain_agent_loss_aligned|].
  apply (sample_batch_arrays_aligned Counting.small 7 0 true false
           (Counting.fresh 3 true 2 (9 # 10) 2) 0 1).
  exact plain_agent_loss_aligned.
Defined.

Lemma episodes_executed_counts_non_boundary_steps_witness :
  (0 < 7)%Z
  /\ exists self' sample,
       execute_and_get_timesteps Counting.small 7 0 true false
         (Counting.fresh 3 true 1 (9 # 10) 1) 0 1
       = Some (self', Ok sample)
       /\ let T := m_timesteps_executed (metrics sample) in
          let B := (Py.len (episode_rewards self')
                    - Py.len (episode_rewards (Counting.fresh 3 true 1 (9 # 10) 1)))%Z in
          episodes_executed self'
          = (episodes_executed (Counting.fresh 3 true 1 (9 # 10) 1) + (T - B))%Z
          /\ (B = 1%Z ->
              episodes_executed self'
              = (episodes_executed (Counting.fresh 3 true 1 (9 # 10) 1) + (T - 1))%Z)
          /\ (forall stats,
                get_workload_statistics self' = Ok stats ->
                ws_episodes_executed stats
                = (episodes_executed (Counting.fresh 3 true 1 (9 # 10) 1) + (T - B))%Z).
Proof.
  split; [reflexivity|].
  apply (episodes_executed_counts_non_boundary_steps Counting.small 7 0 true false
           (Counting.fresh 3 true 1 (9 # 10) 1) 0 1).
  reflexivity.
Defined.

Lemma ten_steps_without_terminal_witness :
  never_terminal (Env := nat) (State := nat) (Act := unit)
  /\ worker_frameskip (Counting.fresh_endless true 1 (99 # 100) 1) = 1%Z
  /\ n_step_adjustment (Counting.fresh_endless true 1 (99 # 100) 1) = 1%Z
  /\ exists self' sample,
       execute_and_get_timesteps Counting.small 10 0 true false
         (Counting.fresh_endless true 1 (99 # 100) 1) 0 1
       = Some (self', Ok sample)
       /\ batch_size sample = 10%Z
       /\ Py.len (states (sample_batch sample)) = 10%Z
       /\ Py.len (actions (sample_batch sample)) = 10%Z
       /\ Py.len (rewards (sample_batch sample)) = 10%Z
       /\ Py.len (terminals (sample_batch sample)) = 10%Z
       /\ m_timesteps_executed (metrics sample) = 10%Z
       /\ Py.len (episode_rewards self')
          = (Py.len (episode_rewards (Counting.fresh_endless true 1 (99 # 100) 1)) + 1)%Z
       /\ Py.len (episode_timesteps self')
          = (Py.len (episode_timesteps (Counting.fresh_endless true 1 (99 # 100) 1)) + 1)%Z
       /\ last_terminal self' = false.
Proof.
  split; [exact endless_never_terminal|].
  split; [reflexivity|]. split; [reflexivity|].
  apply (ten_steps_without_terminal Counting.small true
           (Counting.fresh_endless true 1 (99 # 100) 1) 0 1).
  - exact endless_never_terminal.
  - reflexivity.
  - reflexivity.
Defined.

(** C2 with zero recorded episodes fails: after the ten steps on a fresh
    worker the histories are not empty. *)
Lemma ten_steps_book_one_episode :
  ~ (exists self' sample,
       execute_and_get_timesteps Counting.small 10 0 true false
         (Counting.fresh_endless true 1 (99 # 100) 1) 0 1
       = Some (self', Ok sample)
       /\ batch_size sample = 10%Z
       /\ episode_rewards self' = []
       /\ episode_timesteps self' = []
       /\ last_terminal self' = false).
Proof.
  intros (self' & sample & Hcall & _ & Hrewards & _).
  vm_compute in Hcall. injection Hcall as <- _.
  discriminate Hrewards.
Qed.

Lemma n_step_three_on_unit_rewards_witness :
  n_step_adjustment (Counting.fresh 0 true 3 (9 # 10) 1) = 3%Z
  /\ discount (Counting.fresh 0 true 3 (9 # 10) 1) = (9 # 10)%Q
  /\ length (tr_states Counting.unit_rewards) = 5%nat
  /\ length (tr_actions Counting.unit_rewards) = 5%nat
  /\ length (tr_next_states Counting.unit_rewards) = 5%nat
  /\ tr_rewards Counting.unit_rewards = [1; 1; 1; 1; 1]%Q
  /\ tr_terminals Counting.unit_rewards = [false; false; false; false; false]
  /\ exists t' agt b r0 rest,
       n_step_correction (Counting.fresh 0 true 3 (9 # 10) 1) Counting.unit_rewards = Ok t'
       /\ _process_sample_if_necessary Counting.small
            (Counting.fresh 0 true 3 (9 # 10) 1) Counting.unit_rewards
          = Ok (set_agent (Counting.fresh 0 true 3 (9 # 10) 1) agt, (b, 3%Z))
       /\ rewards b = r0 :: rest
       /\ (r0 == 271 # 100)%Q
       /\ (1 + (9 # 10) * 1 + (81 # 100) * 1 == 271 # 100)%Q
       /\ length (tr_states t') = 3%nat
       /\ length (tr_actions t') = 3%nat
       /\ length (tr_rewards t') = 3%nat
       /\ length (tr_next_states t') = 3%nat
       /\ length (tr_terminals t') = 3%nat
       /\ length (states b) = 3%nat
       /\ length (actions b) = 3%nat
       /\ length (rewards b) = 3%nat
       /\ length (terminals b) = 3%nat
       /\ (worker_computes_weights (Counting.fresh 0 true 3 (9 # 10) 1) = false
           \/ per_item_loss_aligned (Agt := unit) (State := nat) (Act := unit) ->
           length (importance_weights b) = 3%nat).
Proof.
  do 7 (split; [reflexivity|]).
  apply (n_step_three_on_unit_rewards Counting.small
           (Counting.fresh 0 true 3 (9 # 10) 1) Counting.unit_rewards);
    reflexivity.
Defined.

Lemma n_step_one_leaves_trajectory_unchanged_witness :
  n_step_adjustment (Counting.fresh 0 true 1 (9 # 10) 1) = 1%Z
  /\ n_step_correction (Counting.fresh 0 true 1 (9 # 10) 1) Counting.unit_rewards
     = Ok Counting.unit_rewards
  /\ exists agt weights,
       _process_sample_if_necessary Counting.small
         (Counting.fresh 0 true 1 (9 # 10) 1) Counting.unit_rewards
       = Ok (set_agent (Counting.fresh 0 true 1 (9 # 10) 1) agt,
             ({| states := map ray_compress (tr_states Counting.unit_rewards);
                 actions := tr_actions Counting.unit_rewards;
                 rewards := tr_rewards Counting.unit_rewards;
                 terminals := tr_terminals Counting.unit_rewards;
                 importance_weights := weights |},
              Py.len (tr_rewards Counting.unit_rewards))).
Proof.
  split; [reflexivity|].
  apply (n_step_one_leaves_trajectory_unchanged Counting.small
           (Counting.fresh 0 true 1 (9 # 10) 1) Counting.unit_rewards).
  reflexivity.
Defined.

Lemma workload_statistics_fail_without_episodes_witness :
  episode_rewards (Counting.fresh 3 true 1 (9 # 10) 1) = []
  /\ get_workload_statistics (Counting.fresh 3 true 1 (9 # 10) 1) = Raise ValueError.
Proof.
  split; [reflexivity|].
  apply (workload_statistics_fail_without_episodes (Counting.fresh 3 true 1 (9 # 10) 1)).
  reflexivity.
Defined.

(** ** The executor *)

Section ExecutorFacts.

Import RayExecutor.

Context {Cls Atom : Type}.

(** A tuple is not the list of its own items: the one positional argument
    that [create_remote_workers] passes is never the argument list it was
    given. *)
Lemma tuple_is_not_its_items (args : list (pyobj Atom)) :
  [PyTuple args] <> args.
Proof.
  intros Heq.
  assert (Hdepth : list_max (map depth args) = S (list_max (map depth args))).
  { rewrite <- Heq at 1. simpl. lia. }
  lia.
Qed.

(** The loop makes [k] new actors, all of class [cls], and hands each
    constructor the single argument [PyTuple args]. *)
Lemma create_loop_spec (k : nat) (cls : Cls) (args : list (pyobj Atom)) :
  forall c : cluster Cls Atom,
    create_loop k cls args c
    = (c ++ replicate k (cls, [PyTuple args]), seq (length c) k).
Proof.
  induction k as [|k IH]; intros c; simpl.
  - by rewrite app_nil_r.
  - rewrite IH. rewrite length_app. simpl.
    rewrite <- app_assoc. simpl. by rewrite Nat.add_1_r.
Qed.

(** The list returned has [num_actors] handles, all different, each of an
    actor made by this call. *)
Lemma create_remote_workers_handles (cls : Cls) (num_actors : Z)
    (args : list (pyobj Atom)) (c : cluster Cls Atom) :
  let '(c', handles) := create_remote_workers cls num_actors args c in
  length handles = Z.to_nat num_actors
  /\ NoDup handles
  /\ Forall (fun h => (length c <= h)%nat
                      /\ c' !! h = Some (cls, [PyTuple args])) handles.
Proof.
  unfold create_remote_workers. rewrite create_loop_spec. cbv beta iota.
  split; [apply length_seq|]. split; [apply NoDup_seq|].
  apply Forall_forall. intros h Hh. apply elem_of_seq in Hh.
  cbv beta. split; [lia|]. unfold cluster in *.
  rewrite lookup_app_r by lia. apply lookup_replicate_2. lia.
Qed.

End ExecutorFacts.

(** C9. [create_remote_workers(RayWorker, 2, agent_config, env_spec,
    worker_spec)] does return two handles to two new actors, but each actor's
    constructor is called with ONE positional argument, the tuple
    [(agent_config, env_spec, worker_spec)], not with the three arguments. *)
Theorem create_remote_workers_passes_one_tuple :
  RayExecutor.create_remote_workers Counting.RayWorkerClass 2
    [RayExecutor.PyAtom Counting.agent_config;
     RayExecutor.PyAtom Counting.env_spec;
     RayExecutor.PyAtom Counting.worker_spec] []
  = ([(Counting.RayWorkerClass,
       [RayExecutor.PyTuple
          [RayExecutor.PyAtom Counting.agent_config;
           RayExecutor.PyAtom Counting.env_spec;
           RayExecutor.PyAtom Counting.worker_spec]]);
      (Counting.RayWorkerClass,
       [RayExecutor.PyTuple
          [RayExecutor.PyAtom Counting.agent_config;
           RayExecutor.PyAtom Counting.env_spec;
           RayExecutor.PyAtom Counting.worker_spec]])],
     [0; 1]%nat).
Proof. reflexivity. Qed.

(** * Further properties of the worker *)

Section LoopInvariants.

Context {Env Agt State Act Blob : Type}.
Context `{!Environment Env State Act} `{!Agent Agt State Act} `{!Arrays State Blob}.

Variable SMALL_NUMBER : Q.
Variables num_timesteps max_timesteps_per_episode : Z.
Variables use_exploration break_on_terminal : bool.

Abbreviation worker := (RayWorker Env Agt State).
Abbreviation locals := (@Locals State Act).
Abbreviation episode := (@Episode State).

(** When the inner loop returns, its last pass was a decision point on a
    boundary followed by the bookkeeping, and that pass started in a state
    that satisfies any property [I] the passes without a boundary preserve. *)
Lemma episode_loop_exit (I : worker -> locals -> episode -> Prop) :
  (forall self l ep self1 l1 ep1,
      I self l ep ->
      decision_point use_exploration self l ep = (self1, l1, ep1) ->
      episode_boundary num_timesteps max_timesteps_per_episode l1 ep1 = false ->
      I (set_episodes_executed self1 (episodes_executed self1 + 1)) l1 ep1) ->
  forall (fuel : nat) (self : worker) (l : locals) (ep : episode) self' l' ep',
    I self l ep ->
    episode_loop num_timesteps max_timesteps_per_episode use_exploration
      break_on_terminal fuel self l ep = Some (self', l', ep') ->
    exists selfa la epa self1 l1,
      I selfa la epa
      /\ decision_point use_exploration selfa la epa = (self1, l1, ep')
      /\ episode_boundary num_timesteps max_timesteps_per_episode l1 ep' = true
      /\ episode_bookkeeping break_on_terminal self1 l1 ep' = (self', l').
Proof.
  intros Hstep. induction fuel as [|fuel IH]; intros self l ep self' l' ep' HI;
    [discriminate|].
  cbn [episode_loop].
  destruct (decision_point use_exploration self l ep) as [[self1 l1] ep1] eqn:Hdp.
  destruct (episode_boundary num_timesteps max_timesteps_per_episode l1 ep1)
    eqn:Hboundary.
  - destruct (episode_bookkeeping break_on_terminal self1 l1 ep1) as [self2 l2] eqn:Hbk.
    intros [= <- <- <-]. exists self, l, ep, self1, l1. auto.
  - intros Hloop. eapply IH; [|exact Hloop]. eapply Hstep; eauto.
Qed.

(** A property [O] of the state at the head of the outer loop that every
    episode re-establishes holds when the loop returns; and the loop returns
    either on [break_loop] or with the budget used up. *)
Lemma rollout_loop_invariant (O : worker -> locals -> option episode -> Prop) :
  (forall self l bound self1 ep0 fuel self2 l2 ep2,
      O self l bound ->
      break_loop l = false ->
      (timesteps_executed l < num_timesteps)%Z ->
      episode_start self l = (self1, ep0) ->
      episode_loop num_timesteps max_timesteps_per_episode use_exploration
        break_on_terminal fuel self1 l ep0 = Some (self2, l2, ep2) ->
      O self2 l2 (Some ep2)) ->
  forall (fuel : nat) (self : worker) (l : locals) (bound : option episode)
         self' l' bound',
    break_loop l = false ->
    O self l bound ->
    rollout_loop num_timesteps max_timesteps_per_episode use_exploration
      break_on_terminal fuel self l bound = Some (self', l', bound') ->
    O self' l' bound'
    /\ (break_loop l' = true \/ (num_timesteps <= timesteps_executed l')%Z).
Proof.
  intros Hstep. induction fuel as [|fuel IH];
    intros self l bound self' l' bound' Hbreak HO; [discriminate|].
  cbn [rollout_loop].
  destruct (Z.ltb_spec (timesteps_executed l) num_timesteps) as [Hlt|Hge].
  - destruct (episode_start self l) as [self1 ep0] eqn:Hstart.
    destruct (episode_loop _ _ _ _ fuel self1 l ep0) as [[[self2 l2] ep2]|] eqn:Hloop;
      [|discriminate].
    assert (HO2 : O self2 l2 (Some ep2)) by (eapply Hstep; eauto).
    destruct (break_loop l2) eqn:Hbreak2.
    + intros [= <- <- <-]. auto.
    + intros Hrest. eapply IH; eauto.
  - intros [= <- <- <-]. auto.
Qed.

(** A call with a positive budget is its outer loop, which returns with the
    episode's locals bound, followed by [finish_call]. *)
Lemma execute_decompose (self : worker) (start stop : Q) :
  (0 < num_timesteps)%Z ->
  exists self1 l1 ep1,
    rollout_loop num_timesteps max_timesteps_per_episode use_exploration
      break_on_terminal (S (Z.to_nat num_timesteps)) self (initial_locals self) None
    = Some (self1, l1, Some ep1)
    /\ execute_and_get_timesteps SMALL_NUMBER num_timesteps max_timesteps_per_episode
         use_exploration break_on_terminal self start stop
       = Some (finish_call SMALL_NUMBER self1 l1 ep1 start stop)
    /\ aligned_locals l1
    /\ progress self (initial_locals self) self1 l1
    /\ (0 < timesteps_executed l1 <= num_timesteps)%Z
    /\ (0 < l_episodes_executed l1)%Z.
Proof.
  intros Hnum. unfold execute_and_get_timesteps, execute_and_get_timesteps_fuel.
  destruct (rollout_loop_spec num_timesteps max_timesteps_per_episode
              use_exploration break_on_terminal (S (Z.to_nat num_timesteps))
              self (initial_locals self) None)
    as (self1 & l1 & bound & Hloop & Hp & Ha & Hle & Hb); [simpl; lia | simpl; lia |].
  simpl in Hb, Hle.
  destruct (Z.ltb_spec 0 num_timesteps) as [_|]; [|lia].
  destruct Hb as (Ht & He & ep & ->).
  exists self1, l1, ep. rewrite Hloop.
  repeat match goal with |- _ /\ _ => split end; auto; try lia.
  apply Ha. repeat split.
Qed.


(** Opening a decision point: its agent call and its frameskip loop. *)
Ltac open_decision_point H :=
  unfold decision_point in H;
  destruct (get_action _ _ _) as [?agt [?action ?pstate]];
  destruct (frameskip_loop _ _ _ _ _ _ _)
    as [[[[?env ?ns] ?reward] ?tm] ?frames] eqn:?Hskip;
  injection H as <- <- <-.

(** The post-processor returns the worker it was given, with the agent as
    [agent.update] left it. *)
Lemma process_sample_worker (self self' : worker) (t : Trajectory State Act)
    (b : SampleBatch Blob Act) (size : Z) :
  _process_sample_if_necessary SMALL_NUMBER self t = Ok (self', (b, size)) ->
  exists agt t',
    self' = set_agent self agt
    /\ n_step_correction self t = Ok t'
    /\ states b = map ray_compress (tr_states t')
    /\ actions b = tr_actions t'
    /\ rewards b = tr_rewards t'
    /\ terminals b = tr_terminals t'
    /\ size = Py.len (tr_rewards t')
    /\ (worker_computes_weights self = false ->
        importance_weights b = map (fun _ => 1%Q) (tr_rewards t'))
    /\ (worker_computes_weights self = true ->
        exists loss_per_item,
          importance_weights b
          = map (fun loss => (Qabs loss + SMALL_NUMBER)%Q) loss_per_item).
Proof.
  unfold _process_sample_if_necessary.
  destruct (n_step_correction self t) as [t'|]; [|discriminate]. cbn [bind].
  destruct (worker_computes_weights self).
  - destruct (agent_update _ _) as [agt loss_per_item].
    intros [= <- <- <-]. exists agt, t'.
    repeat match goal with |- _ /\ _ => split end; try done. eauto.
  - intros [= <- <- <-]. exists (agent self), t'.
    repeat match goal with |- _ /\ _ => split end; try done.
Qed.

(** What [finish_call] does to the worker and what it puts in the sample. *)
Lemma finish_call_result (self self' : worker) (l : locals) (ep : episode)
    (start stop : Q) (sample : EnvironmentSample Act Blob) :
  finish_call SMALL_NUMBER self l ep start stop = (self', Ok sample) ->
  environment self' = environment self
  /\ total_worker_steps self' = total_worker_steps self
  /\ episodes_executed self' = episodes_executed self
  /\ episode_rewards self' = episode_rewards self
  /\ episode_timesteps self' = episode_timesteps self
  /\ last_terminal self' = terminal ep
  /\ last_ep_reward self' = episode_reward ep
  /\ sample_steps self' = sample_steps self ++ [timesteps_executed l]
  /\ sample_times self' = sample_times self ++ [runtime (metrics sample)]
  /\ sample_env_frames self' = sample_env_frames self ++ [env_frames l]
  /\ runtime (metrics sample)
     = (if Qeq_bool (stop - start) 0 then 1 # 10000000000 else stop - start)%Q
  /\ m_timesteps_executed (metrics sample) = timesteps_executed l
  /\ ops_per_second (metrics sample)
     = (inject_Z (timesteps_executed l) / runtime (metrics sample))%Q
  /\ exists self3 next_states,
       _process_sample_if_necessary SMALL_NUMBER self3
         (mkTrajectory (l_states l) (l_actions l) (l_rewards l) next_states
            (l_terminals l))
       = Ok (self', (sample_batch sample, batch_size sample))
       /\ same_config self self3.
Proof.
  unfold finish_call.
  destruct (if terminal ep then _ else _) as [agt preprocessed_state].
  destruct (_process_sample_if_necessary _ _ _) as [[self4 [b size]]|] eqn:Hprocess;
    [|discriminate].
  intros [= <- <-]. cbn [sample_batch batch_size metrics runtime m_timesteps_executed
                          ops_per_second].
  pose proof Hprocess as Hworker.
  apply process_sample_worker in Hworker as (agt' & t' & -> & _).
  repeat match goal with |- _ /\ _ => split end; try (by destruct self).
  do 2 eexists. split; [exact Hprocess|]. destruct self. repeat split.
Qed.


(** A call with a positive budget: the state in which its outer loop
    returns, and the worker and the sample that [finish_call] makes of it. *)
Lemma execute_via_rollout (self : worker) (start stop : Q) :
  (0 < num_timesteps)%Z ->
  exists self1 l1 ep1 self' sample,
    rollout_loop num_timesteps max_timesteps_per_episode use_exploration
      break_on_terminal (S (Z.to_nat num_timesteps)) self (initial_locals self) None
    = Some (self1, l1, Some ep1)
    /\ finish_call SMALL_NUMBER self1 l1 ep1 start stop = (self', Ok sample)
    /\ execute_and_get_timesteps SMALL_NUMBER num_timesteps max_timesteps_per_episode
         use_exploration break_on_terminal self start stop
       = Some (self', Ok sample)
    /\ progress self (initial_locals self) self1 l1
    /\ (0 < timesteps_executed l1 <= num_timesteps)%Z
    /\ (0 < l_episodes_executed l1)%Z.
Proof.
  intros Hnum.
  destruct (execute_decompose self start stop Hnum)
    as (self1 & l1 & ep1 & Hloop & Hcall & Ha & Hp & Ht & He).
  destruct (finish_call_spec SMALL_NUMBER self1 l1 ep1 start stop Ha)
    as (self' & sample & Hfinish & _).
  exists self1, l1, ep1, self', sample. rewrite Hcall, Hfinish.
  repeat match goal with |- _ /\ _ => split end; auto; lia.
Qed.

(** The outer loop leaves [break_loop] set only after a terminal, and only
    when [break_on_terminal] is set. *)
Lemma rollout_loop_break (fuel : nat) (self self' : worker) (l l' : locals)
    (bound bound' : option episode) :
  break_loop l = false ->
  rollout_loop num_timesteps max_timesteps_per_episode use_exploration
    break_on_terminal fuel self l bound = Some (self', l', bound') ->
  (break_loop l' = true ->
   break_on_terminal = true /\ exists ep, bound' = Some ep /\ terminal ep = true)
  /\ (break_loop l' = true \/ (num_timesteps <= timesteps_executed l')%Z).
Proof.
  intros Hbreak Hloop.
  eapply (rollout_loop_invariant
            (fun _ l b =>
               break_loop l = true ->
               break_on_terminal = true /\ exists ep, b = Some ep /\ terminal ep = true));
    [| exact Hbreak | congruence | exact Hloop].
  clear. intros self l bound self1 ep0 fuel self2 l2 ep2 _ Hbreak _ _ Hloop.
  eapply (episode_loop_exit (fun _ l _ => break_loop l = false)) in Hloop
    as (selfa & la & epa & self1' & l1 & Hla & Hdp & _ & Hbk); [| | exact Hbreak].
  - open_decision_point Hdp. unfold episode_bookkeeping in Hbk.
    injection Hbk as <- <-. cbn. rewrite Hla.
    destruct tm, break_on_terminal; try discriminate. eauto.
  - clear. intros self l ep self1 l1 ep1 Hl Hdp _. by open_decision_point Hdp.
Qed.

(** X1. A call stops short of its budget only on a terminal, and only when
    [break_on_terminal] is set; otherwise it returns exactly [num_timesteps]
    decision points. *)
Theorem stops_short_only_on_terminal (self : worker) (start stop : Q) :
  (0 < num_timesteps)%Z ->
  exists self' sample,
    execute_and_get_timesteps SMALL_NUMBER num_timesteps max_timesteps_per_episode
      use_exploration break_on_terminal self start stop
    = Some (self', Ok sample)
    /\ (m_timesteps_executed (metrics sample) = num_timesteps
        \/ (break_on_terminal = true /\ last_terminal self' = true))
    /\ (break_on_terminal = false ->
        m_timesteps_executed (metrics sample) = num_timesteps).
Proof.
  intros Hnum.
  destruct (execute_via_rollout self start stop Hnum)
    as (self1 & l1 & ep1 & self' & sample & Hloop & Hfinish & Hcall & _ & Ht & _).
  apply rollout_loop_break in Hloop as [Hstop Hend]; [|reflexivity].
  apply finish_call_result in Hfinish
    as (_ & _ & _ & _ & _ & Hlast & _ & _ & _ & _ & _ & Hm & _).
  exists self', sample. rewrite Hm, Hlast. split; [exact Hcall|].
  assert (Hcases : timesteps_executed l1 = num_timesteps
                   \/ (break_on_terminal = true /\ terminal ep1 = true)).
  { destruct Hend as [Hbreak|Hge]; [|left; lia].
    right. destruct (Hstop Hbreak) as (Hbot & ep & [= <-] & Hterminal). auto. }
  split; [exact Hcases|].
  intros Hbot. destruct Hcases as [|[Hbot' _]]; [done | congruence].
Qed.

(** Every return of the inner loop has just appended the episode's reward
    and length to the histories. *)
Lemma rollout_loop_last_entry (fuel : nat) (self self' : worker) (l l' : locals)
    (ep' : episode) :
  break_loop l = false ->
  rollout_loop num_timesteps max_timesteps_per_episode use_exploration
    break_on_terminal fuel self l None = Some (self', l', Some ep') ->
  last (episode_rewards self') = Some (episode_reward ep')
  /\ last (episode_timesteps self') = Some (episode_timestep ep').
Proof.
  intros Hbreak Hloop.
  eapply (rollout_loop_invariant
            (fun self _ b =>
               forall ep, b = Some ep ->
                          last (episode_rewards self) = Some (episode_reward ep)
                          /\ last (episode_timesteps self) = Some (episode_timestep ep)))
    in Hloop as [Hlast _]; [by apply Hlast | | exact Hbreak | discriminate].
  clear. intros self l bound self1 ep0 fuel self2 l2 ep2 _ _ _ _ Hloop ep [= <-].
  eapply (episode_loop_exit (fun _ _ _ => True)) in Hloop
    as (selfa & la & epa & self1' & l1 & _ & _ & _ & Hbk); auto.
  unfold episode_bookkeeping in Hbk. injection Hbk as <- _.
  destruct self1'. cbn. split; apply last_snoc.
Qed.

(** X2. The last decision point of a call is always booked as an episode
    boundary: the last entry of the episode-reward history is the stored
    [last_ep_reward], the reward a continuing call resumes from. *)
Theorem last_episode_entry_is_stored_reward (self : worker) (start stop : Q) :
  (0 < num_timesteps)%Z ->
  exists self' sample,
    execute_and_get_timesteps SMALL_NUMBER num_timesteps max_timesteps_per_episode
      use_exploration break_on_terminal self start stop
    = Some (self', Ok sample)
    /\ Py.last_item (episode_rewards self') = Ok (last_ep_reward self').
Proof.
  intros Hnum.
  destruct (execute_via_rollout self start stop Hnum)
    as (self1 & l1 & ep1 & self' & sample & Hloop & Hfinish & Hcall & _ & _ & _).
  apply rollout_loop_last_entry in Hloop as [Hlast _]; [|reflexivity].
  apply finish_call_result in Hfinish
    as (_ & _ & _ & Hrewards & _ & _ & Hreward & _).
  exists self', sample. split; [exact Hcall|].
  unfold Py.last_item. by rewrite Hrewards, Hreward, Hlast.
Qed.

(** Opening the head of the outer loop's body. *)
Ltac open_episode_start H :=
  unfold episode_start in H;
  destruct (last_terminal _ || _);
  [destruct (env_reset _) as [?env ?state0] |];
  injection H as <- <-.

(** The loops never touch the three per-call lists. *)
Lemma rollout_loop_keeps_samples (fuel : nat) (self self' : worker) (l l' : locals)
    (bound bound' : option episode) :
  break_loop l = false ->
  rollout_loop num_timesteps max_timesteps_per_episode use_exploration
    break_on_terminal fuel self l bound = Some (self', l', bound') ->
  sample_steps self' = sample_steps self
  /\ sample_times self' = sample_times self
  /\ sample_env_frames self' = sample_env_frames self.
Proof.
  intros Hbreak Hloop.
  eapply (rollout_loop_invariant
            (fun self1 _ _ =>
               sample_steps self1 = sample_steps self
               /\ sample_times self1 = sample_times self
               /\ sample_env_frames self1 = sample_env_frames self))
    in Hloop as [Hkeep _]; [exact Hkeep | | exact Hbreak | done].
  clear. intros self1 l bound self2 ep0 fuel self3 l3 ep3 Hkeep _ _ Hstart Hloop.
  eapply (episode_loop_exit
            (fun self1 _ _ =>
               sample_steps self1 = sample_steps self
               /\ sample_times self1 = sample_times self
               /\ sample_env_frames self1 = sample_env_frames self))
    in Hloop as (selfa & la & epa & selfb & lb & Hkeepa & Hdp & _ & Hbk).
  - open_decision_point Hdp. unfold episode_bookkeeping in Hbk.
    injection Hbk as <- _. by destruct selfa.
  - clear. intros selfa la epa selfb lb epb Hkeep Hdp _.
    open_decision_point Hdp. by destruct selfa.
  - open_episode_start Hstart; by destruct self1.
Qed.

(** X4. Every call appends exactly one entry to each of the three per-call
    lists: the number of decision points to [sample_steps], the runtime to
    [sample_times] and the environment frames to [sample_env_frames]. *)
Theorem one_sample_entry_per_call (self : worker) (start stop : Q) :
  (0 < num_timesteps)%Z ->
  exists self' sample frames,
    execute_and_get_timesteps SMALL_NUMBER num_timesteps max_timesteps_per_episode
      use_exploration break_on_terminal self start stop
    = Some (self', Ok sample)
    /\ sample_steps self' = sample_steps self ++ [m_timesteps_executed (metrics sample)]
    /\ sample_times self' = sample_times self ++ [runtime (metrics sample)]
    /\ sample_env_frames self' = sample_env_frames self ++ [frames].
Proof.
  intros Hnum.
  destruct (execute_via_rollout self start stop Hnum)
    as (self1 & l1 & ep1 & self' & sample & Hloop & Hfinish & Hcall & _ & _ & _).
  apply rollout_loop_keeps_samples in Hloop as (Hsteps & Htimes & Hframes);
    [|reflexivity].
  apply finish_call_result in Hfinish
    as (_ & _ & _ & _ & _ & _ & _ & Hs & Ht & Hf & _ & Hm & _).
  exists self', sample, (env_frames l1).
  rewrite Hs, Ht, Hf, Hm, Hsteps, Htimes, Hframes. auto.
Qed.

(** The frameskip loop of [k] rounds steps the environment at least once
    (when [k] is not 0) and at most [k] times. *)
Lemma frameskip_loop_frames (k : nat) (action : Act) :
  forall (env : Env) (next_state_ : State) (reward : Q) (terminal_ : bool) (frames : Z),
    (frames + Z.min 1 (Z.of_nat k)
     <= (frameskip_loop k env action next_state_ reward terminal_ frames).2
     <= frames + Z.of_nat k)%Z.
Proof.
  induction k as [|k IH]; intros env next_state_ reward terminal_ frames.
  - simpl. lia.
  - cbn [frameskip_loop].
    destruct (env_step env action) as [env' [[next_state' step_reward] terminal']].
    destruct terminal'; [simpl; lia|].
    specialize (IH env' next_state' (reward + step_reward)%Q false (frames + 1)%Z).
    lia.
Qed.

(** The frames consumed, against the decision points made. *)
Lemma rollout_loop_frames (fuel : nat) (self self' : worker) (l l' : locals)
    (bound bound' : option episode) :
  break_loop l = false ->
  timesteps_executed l = 0%Z -> env_frames l = 0%Z ->
  rollout_loop num_timesteps max_timesteps_per_episode use_exploration
    break_on_terminal fuel self l bound = Some (self', l', bound') ->
  let K := Z.max (worker_frameskip self) 0 in
  (Z.min 1 K * timesteps_executed l' <= env_frames l' <= K * timesteps_executed l')%Z.
Proof.
  intros Hbreak Ht Hf Hloop K.
  set (inv := fun (self1 : worker) (l1 : locals) =>
                worker_frameskip self1 = worker_frameskip self
                /\ (0 <= timesteps_executed l1)%Z
                /\ (Z.min 1 K * timesteps_executed l1 <= env_frames l1
                    <= K * timesteps_executed l1)%Z).
  eapply (rollout_loop_invariant (fun self1 l1 _ => inv self1 l1))
    in Hloop as [(_ & _ & Hframes) _]; [exact Hframes | | exact Hbreak |].
  - intros self1 l0 bound0 self2 ep0 fuel0 self3 l3 ep3 Hinv _ _ Hstart Hloop0.
    assert (Hstep : forall selfa la epa selfb lb epb,
               inv selfa la ->
               decision_point use_exploration selfa la epa = (selfb, lb, epb) ->
               inv selfb lb).
    { intros selfa la epa selfb lb epb (Hk & Ht' & Hf') Hdp.
      open_decision_point Hdp.
      pose proof (frameskip_loop_frames (Z.to_nat (worker_frameskip selfa)) action
                    (environment selfa) (next_state la) 0%Q (terminal epa)
                    (env_frames la)) as Hbound.
      rewrite Hskip in Hbound. cbn in Hbound.
      split; [by destruct selfa|]. cbn. rewrite Hk in Hbound.
      split; [lia|]. nia. }
    eapply (episode_loop_exit (fun self1 l1 _ => inv self1 l1))
      in Hloop0 as (selfa & la & epa & selfb & lb & Hinva & Hdp & _ & Hbk).
    + apply Hstep in Hdp; [|exact Hinva]. unfold episode_bookkeeping in Hbk.
      injection Hbk as <- <-. destruct Hdp as (Hk & Hrest). split; [|exact Hrest].
      by destruct selfb.
    + intros selfa la epa selfb lb epb Hinva Hdp _.
      apply Hstep in Hdp; [|exact Hinva]. destruct Hdp as (Hk & Hrest).
      split; [|exact Hrest]. by destruct selfb.
    + destruct Hinv as (Hk & Hrest). split; [|exact Hrest].
      open_episode_start Hstart; [by destruct self1 | exact Hk].
  - subst inv. cbn beta. rewrite Ht, Hf. split; [reflexivity|]. lia.
Qed.

(** X5. With frameskip k >= 1 a call of T decision points steps the
    environment between T and k*T times; with a frameskip that is not
    positive it never steps the environment. *)
Theorem environment_frames_per_call (self : worker) (start stop : Q) :
  (0 < num_timesteps)%Z ->
  exists self' sample frames,
    execute_and_get_timesteps SMALL_NUMBER num_timesteps max_timesteps_per_episode
      use_exploration break_on_terminal self start stop
    = Some (self', Ok sample)
    /\ last (sample_env_frames self') = Some frames
    /\ ((1 <= worker_frameskip self)%Z ->
        (m_timesteps_executed (metrics sample) <= frames
         <= worker_frameskip self * m_timesteps_executed (metrics sample))%Z)
    /\ ((worker_frameskip self <= 0)%Z -> frames = 0%Z).
Proof.
  intros Hnum.
  destruct (execute_via_rollout self start stop Hnum)
    as (self1 & l1 & ep1 & self' & sample & Hloop & Hfinish & Hcall & _ & Ht & _).
  apply rollout_loop_frames in Hloop; [|reflexivity..].
  apply finish_call_result in Hfinish
    as (_ & _ & _ & _ & _ & _ & _ & _ & _ & Hf & _ & Hm & _).
  exists self', sample, (env_frames l1). rewrite Hf, Hm, last_snoc.
  repeat match goal with |- _ /\ _ => split end; auto.
  - intros Hk. replace (Z.max (worker_frameskip self) 0) with (worker_frameskip self)
      in Hloop by lia.
    replace (Z.min 1 (worker_frameskip self)) with 1%Z in Hloop by lia. lia.
  - intros Hk. replace (Z.max (worker_frameskip self) 0) with 0%Z in Hloop by lia.
    lia.
Qed.


(** [total_worker_steps] against the decision points made: every boundary
    adds the running count of the call, not the length of the episode. *)
Lemma rollout_loop_total_steps (fuel : nat) (self self' : worker) (l l' : locals)
    (bound bound' : option episode) :
  break_loop l = false ->
  timesteps_executed l = 0%Z -> l_episodes_executed l = 0%Z ->
  rollout_loop num_timesteps max_timesteps_per_episode use_exploration
    break_on_terminal fuel self l bound = Some (self', l', bound') ->
  (l_episodes_executed l' = 0 -> total_worker_steps self' = total_worker_steps self)%Z
  /\ (1 <= l_episodes_executed l' ->
      timesteps_executed l' <= total_worker_steps self' - total_worker_steps self)%Z
  /\ (l_episodes_executed l' = 1 ->
      total_worker_steps self' - total_worker_steps self = timesteps_executed l')%Z.
Proof.
  intros Hbreak Ht He Hloop.
  set (inv := fun (self1 : worker) (l1 : locals) =>
                (0 <= timesteps_executed l1)%Z
                /\ (0 <= l_episodes_executed l1)%Z
                /\ (l_episodes_executed l1 = 0 ->
                    total_worker_steps self1 = total_worker_steps self)%Z
                /\ (1 <= l_episodes_executed l1 ->
                    timesteps_executed l1
                    <= total_worker_steps self1 - total_worker_steps self)%Z
                /\ (l_episodes_executed l1 = 1 ->
                    total_worker_steps self1 - total_worker_steps self
                    = timesteps_executed l1)%Z).
  eapply (rollout_loop_invariant (fun self1 l1 _ => inv self1 l1))
    in Hloop as [(_ & _ & Hinv) _]; [exact Hinv | | exact Hbreak |].
  - intros self1 l0 bound0 self2 ep0 fuel0 self3 l3 ep3 Hinv _ _ Hstart Hloop0.
    eapply (episode_loop_exit
              (fun selfa la _ =>
                 total_worker_steps selfa = total_worker_steps self1
                 /\ l_episodes_executed la = l_episodes_executed l0
                 /\ (timesteps_executed l0 <= timesteps_executed la)%Z))
      in Hloop0 as (selfa & la & epa & selfb & lb & (Htotal & Heps & Hsteps) & Hdp & _ & Hbk).
    + open_decision_point Hdp. unfold episode_bookkeeping in Hbk.
      injection Hbk as <- <-. destruct Hinv as (H0 & H1 & H2 & H3 & H4).
      destruct selfa. unfold inv. cbn in *. lia.
    + intros selfa la epa selfb lb epb (Htotal & Heps & Hsteps) Hdp _.
      open_decision_point Hdp. destruct selfa. cbn in *. lia.
    + open_episode_start Hstart; destruct self1; cbn; lia.
  - unfold inv. lia.
Qed.

(** X6. A call adds at least its own number of decision points to
    [total_worker_steps] (the value reported as [worker_steps]), and exactly
    that number when it books a single episode boundary. *)
Theorem worker_steps_per_call (self : worker) (start stop : Q) :
  (0 < num_timesteps)%Z ->
  exists self' sample,
    execute_and_get_timesteps SMALL_NUMBER num_timesteps max_timesteps_per_episode
      use_exploration break_on_terminal self start stop
    = Some (self', Ok sample)
    /\ (m_timesteps_executed (metrics sample)
        <= total_worker_steps self' - total_worker_steps self)%Z
    /\ ((Py.len (episode_rewards self') = Py.len (episode_rewards self) + 1)%Z ->
        (total_worker_steps self' - total_worker_steps self
         = m_timesteps_executed (metrics sample))%Z).
Proof.
  intros Hnum.
  destruct (execute_via_rollout self start stop Hnum)
    as (self1 & l1 & ep1 & self' & sample & Hloop & Hfinish & Hcall & Hp & Ht & He).
  apply rollout_loop_total_steps in Hloop as (_ & Hge & Heq); [|reflexivity..].
  apply finish_call_result in Hfinish
    as (_ & Htotal & _ & Hrewards & _ & _ & _ & _ & _ & _ & _ & Hm & _).
  destruct Hp as [_ _ _ _ Hhist _]. cbn in Hhist.
  exists self', sample. rewrite Hm, Htotal, Hrewards.
  split; [exact Hcall|]. split; [apply Hge; lia|].
  intros Hone. apply Heq. lia.
Qed.


(** The episode lengths that the loops book under a cap. *)
Lemma rollout_loop_episode_lengths (fuel : nat) (self self' : worker) (l l' : locals)
    (bound bound' : option episode) :
  break_loop l = false ->
  (0 <= last_ep_timestep self < max_timesteps_per_episode)%Z ->
  rollout_loop num_timesteps max_timesteps_per_episode use_exploration
    break_on_terminal fuel self l bound = Some (self', l', bound') ->
  exists new,
    episode_timesteps self' = episode_timesteps self ++ new
    /\ Forall (fun x => (1 <= x <= max_timesteps_per_episode)%Z) new.
Proof.
  intros Hbreak Hlast Hloop.
  set (inv := fun (self1 : worker) =>
                last_ep_timestep self1 = last_ep_timestep self
                /\ exists new,
                     episode_timesteps self1 = episode_timesteps self ++ new
                     /\ Forall (fun x => (1 <= x <= max_timesteps_per_episode)%Z) new).
  eapply (rollout_loop_invariant (fun self1 _ _ => inv self1))
    in Hloop as [[_ Hinv] _]; [exact Hinv | | exact Hbreak |].
  - intros self1 l0 bound0 self2 ep0 fuel0 self3 l3 ep3 Hinv _ _ Hstart Hloop0.
    eapply (episode_loop_exit
              (fun selfa _ epa =>
                 inv selfa
                 /\ (0 <= episode_timestep epa < max_timesteps_per_episode)%Z))
      in Hloop0 as (selfa & la & epa & selfb & lb & (Hinva & Hep) & Hdp & _ & Hbk).
    + open_decision_point Hdp. unfold episode_bookkeeping in Hbk.
      injection Hbk as <- _. destruct Hinva as (Hkeep & new & Hnew & Hall).
      split; [by destruct selfa|]. exists (new ++ [episode_timestep epa + 1]%Z).
      split.
      * destruct selfa. cbn in *. by rewrite Hnew, app_assoc.
      * apply Forall_app. split; [exact Hall|]. apply Forall_singleton. lia.
    + intros selfa la epa selfb lb epb (Hinva & Hep) Hdp Hboundary.
      open_decision_point Hdp. unfold episode_boundary in Hboundary. cbn in Hboundary.
      apply orb_false_elim in Hboundary as [_ Hcap].
      split; [by destruct selfa|]. cbn.
      apply andb_false_iff in Hcap as [Hcap|Hcap]; lia.
    + destruct Hinv as (Hkeep & Hnew).
      open_episode_start Hstart; cbn.
      * split; [by destruct self1|]. lia.
      * split; [by split|]. lia.
  - split; [reflexivity|]. exists []. split; [by rewrite app_nil_r | constructor].
Qed.

(** X7. Under a cap [max_timesteps_per_episode] > 0, every episode length
    that a call books is between 1 and the cap (the stored
    [last_ep_timestep], 0 since the constructor, lying below the cap). *)
Theorem booked_episode_lengths_within_cap (self : worker) (start stop : Q) :
  (0 < num_timesteps)%Z ->
  (0 <= last_ep_timestep self < max_timesteps_per_episode)%Z ->
  exists self' sample new,
    execute_and_get_timesteps SMALL_NUMBER num_timesteps max_timesteps_per_episode
      use_exploration break_on_terminal self start stop
    = Some (self', Ok sample)
    /\ episode_timesteps self' = episode_timesteps self ++ new
    /\ new <> []
    /\ Forall (fun x => (1 <= x <= max_timesteps_per_episode)%Z) new.
Proof.
  intros Hnum Hlast.
  destruct (execute_via_rollout self start stop Hnum)
    as (self1 & l1 & ep1 & self' & sample & Hloop & Hfinish & Hcall & Hp & _ & He).
  apply rollout_loop_episode_lengths in Hloop as (new & Hnew & Hall);
    [| reflexivity | exact Hlast].
  apply finish_call_result in Hfinish as (_ & _ & _ & _ & Htimesteps & _).
  exists self', sample, new. rewrite Htimesteps.
  repeat match goal with |- _ /\ _ => split end; auto.
  intros ->. destruct Hp as [_ _ _ _ _ Hhist]. cbn in Hhist.
  rewrite Hnew, app_nil_r in Hhist. lia.
Qed.


(** The runtime that a call records is positive when the clock does not run
    backwards. *)
Lemma recorded_runtime_positive (start stop : Q) :
  (start <= stop)%Q ->
  (0 < (if Qeq_bool (stop - start) 0 then 1 # 10000000000 else stop - start))%Q.
Proof.
  intros Hclock. destruct (Qeq_bool (stop - start) 0) eqn:Hzero; [reflexivity|].
  apply Qeq_bool_neq in Hzero. lra.
Qed.

(** [sum] of positive numbers. *)
Lemma sum_from_positive (l : list Q) :
  Forall (fun x => (0 < x)%Q) l ->
  forall acc : Q, (acc <= foldl Qplus acc l)%Q /\ (l <> [] -> (acc < foldl Qplus acc l)%Q).
Proof.
  induction 1 as [|x l Hx _ IH]; intros acc; simpl.
  - split; [lra | done].
  - destruct (IH (acc + x)%Q) as [Hle _]. split; [lra | intros _; lra].
Qed.


(** X9. After a call with a positive budget, on a worker whose recorded
    runtimes are positive (none yet, on a fresh worker) and with a clock
    that does not run backwards, [get_workload_statistics] succeeds; it
    reports the call's last episode reward as [final_episode_reward] and the
    worker's counters, and the recorded runtimes stay positive. *)
Theorem statistics_after_a_call (self : worker) (start stop : Q) :
  (0 < num_timesteps)%Z ->
  (start <= stop)%Q ->
  Forall (fun x => (0 < x)%Q) (sample_times self) ->
  exists self' sample stats,
    execute_and_get_timesteps SMALL_NUMBER num_timesteps max_timesteps_per_episode
      use_exploration break_on_terminal self start stop
    = Some (self', Ok sample)
    /\ get_workload_statistics self' = Ok stats
    /\ final_episode_reward stats = last_ep_reward self'
    /\ ws_episode_rewards stats = episode_rewards self'
    /\ ws_episode_timesteps stats = episode_timesteps self'
    /\ ws_episodes_executed stats = episodes_executed self'
    /\ worker_steps stats = total_worker_steps self'
    /\ Forall (fun x => (0 < x)%Q) (sample_times self').
Proof.
  intros Hnum Hclock Hpositive.
  destruct (execute_via_rollout self start stop Hnum)
    as (self1 & l1 & ep1 & self' & sample & Hloop & Hfinish & Hcall & _).
  pose proof Hloop as Hsamples.
  apply rollout_loop_keeps_samples in Hsamples as (_ & Htimes1 & _); [|reflexivity].
  apply rollout_loop_last_entry in Hloop as [Hlast _]; [|reflexivity].
  apply finish_call_result in Hfinish
    as (_ & _ & _ & Hrewards & _ & _ & Hreward & _ & Htimes & _ & Hruntime & _).
  assert (Hpositive' : Forall (fun x => (0 < x)%Q) (sample_times self')).
  { rewrite Htimes, Htimes1. apply Forall_app. split; [exact Hpositive|].
    apply Forall_singleton. rewrite Hruntime. by apply recorded_runtime_positive. }
  assert (Hsum : Qeq_bool (Py.sum (sample_times self')) 0 = false).
  { destruct (sum_from_positive _ Hpositive' 0%Q) as [_ Hlt].
    destruct (Qeq_bool (Py.sum (sample_times self')) 0) eqn:Hzero; [|reflexivity].
    apply Qeq_bool_eq in Hzero. unfold Py.sum in Hzero.
    assert (Hne : sample_times self' <> []) by (rewrite Htimes; by destruct (sample_times self1)).
    specialize (Hlt Hne). lra. }
  rewrite <- Hrewards, <- Hreward in Hlast.
  exists self', sample. unfold get_workload_statistics.
  destruct (episode_rewards self') as [|r rs] eqn:Hhist; [discriminate|].
  cbn [Np.min Np.max bind]. unfold Py.last_item. rewrite Hlast. cbn [bind].
  unfold truediv. rewrite Hsum. cbn [bind].
  eexists. split; [exact Hcall|]. split; [reflexivity|]. cbn.
  repeat match goal with |- _ /\ _ => split end; auto.
Qed.

(** X10. The importance weights of a sample: all 1 when the worker does not
    compute them, and otherwise the absolute per-item losses plus
    [SMALL_NUMBER], so none below [SMALL_NUMBER]. *)
Theorem importance_weights_floor (self : worker) (start stop : Q) :
  (0 < num_timesteps)%Z ->
  exists self' sample,
    execute_and_get_timesteps SMALL_NUMBER num_timesteps max_timesteps_per_episode
      use_exploration break_on_terminal self start stop
    = Some (self', Ok sample)
    /\ (worker_computes_weights self = false ->
        Forall (fun w => w = 1%Q) (importance_weights (sample_batch sample)))
    /\ (worker_computes_weights self = true ->
        Forall (fun w => (SMALL_NUMBER <= w)%Q) (importance_weights (sample_batch sample))).
Proof.
  intros Hnum.
  destruct (execute_via_rollout self start stop Hnum)
    as (self1 & l1 & ep1 & self' & sample & _ & Hfinish & Hcall & Hp & _).
  apply finish_call_result in Hfinish
    as (_ & _ & _ & _ & _ & _ & _ & _ & _ & _ & _ & _ & _ & self3 & ns & Hprocess & Hc3).
  apply process_sample_worker in Hprocess
    as (agt & t' & _ & _ & _ & _ & _ & _ & _ & Hones & Hloss).
  assert (Hcw : worker_computes_weights self3 = worker_computes_weights self).
  { destruct Hp as [Hc1 _ _ _ _ _].
    destruct Hc1 as (_ & Hcw1 & _), Hc3 as (_ & Hcw3 & _). congruence. }
  rewrite Hcw in Hones, Hloss.
  exists self', sample. split; [exact Hcall|]. split.
  - intros Hoff. rewrite (Hones Hoff). apply Forall_forall.
    intros w Hw. apply list_elem_of_fmap in Hw as (_ & -> & _). reflexivity.
  - intros Hon. destruct (Hloss Hon) as [loss_per_item ->]. apply Forall_forall.
    intros w Hw. apply list_elem_of_fmap in Hw as (loss & -> & _).
    pose proof (Qabs_nonneg loss). lra.
Qed.


(** X11. Every call returns (its loops never run out of fuel) and, whatever
    it returns, leaves the worker's configuration as it was: the
    environment's frame multiplier, the weight switch, the n-step
    adjustment, the discount and the frameskip. *)
Theorem call_keeps_configuration (self : worker) (start stop : Q) :
  match
    execute_and_get_timesteps SMALL_NUMBER num_timesteps max_timesteps_per_episode
      use_exploration break_on_terminal self start stop
  with
  | Some (self', _) =>
      env_frame_skip self' = env_frame_skip self
      /\ worker_computes_weights self' = worker_computes_weights self
      /\ n_step_adjustment self' = n_step_adjustment self
      /\ discount self' = discount self
      /\ worker_frameskip self' = worker_frameskip self
  | None => False
  end.
Proof.
  destruct (Z.lt_ge_cases 0 num_timesteps) as [Hnum|Hnum].
  - destruct (execute_spec SMALL_NUMBER num_timesteps max_timesteps_per_episode
                use_exploration break_on_terminal self start stop Hnum)
      as (self1 & sample & -> & Hc & _).
    destruct Hc as (H1 & H2 & H3 & H4 & H5 & _). auto.
  - rewrite execute_without_budget by assumption. auto.
Qed.

(** X12. A budget that is not positive, negative ones included, makes the
    call raise [UnboundLocalError] with the worker exactly as it was: no
    reset, no step, nothing recorded. *)
Theorem non_positive_budget_raises (self : worker) (start stop : Q) :
  (num_timesteps <= 0)%Z ->
  execute_and_get_timesteps SMALL_NUMBER num_timesteps max_timesteps_per_episode
    use_exploration break_on_terminal self start stop
  = Some (self, Raise UnboundLocalError).
Proof. apply execute_without_budget. Qed.

(** X13. [execute_and_get_with_count] makes the same call and returns, beside
    the sample, its batch size: the number of entries of each array of the
    batch. *)
Theorem count_is_the_batch_size (self : worker) (start stop : Q) :
  (0 < num_timesteps)%Z ->
  exists self' sample,
    execute_and_get_timesteps SMALL_NUMBER num_timesteps max_timesteps_per_episode
      use_exploration break_on_terminal self start stop
    = Some (self', Ok sample)
    /\ execute_and_get_with_count SMALL_NUMBER num_timesteps max_timesteps_per_episode
         use_exploration break_on_terminal self start stop
       = Some (self', Ok (sample, Py.len (rewards (sample_batch sample))))
    /\ Py.len (states (sample_batch sample)) = Py.len (rewards (sample_batch sample))
    /\ Py.len (actions (sample_batch sample)) = Py.len (rewards (sample_batch sample))
    /\ Py.len (terminals (sample_batch sample)) = Py.len (rewards (sample_batch sample)).
Proof.
  intros Hnum.
  destruct (execute_spec SMALL_NUMBER num_timesteps max_timesteps_per_episode
              use_exploration break_on_terminal self start stop Hnum)
    as (self' & sample & Hcall & _ & _ & _ & _ & _ & H1 & H2 & H3 & H4 & _).
  exists self', sample. unfold execute_and_get_with_count. rewrite Hcall, H3.
  repeat match goal with |- _ /\ _ => split end; auto; congruence.
Qed.




End LoopInvariants.

(** ** The n-step block on a short trajectory *)

(** X15. On a trajectory of L aligned transitions with L + 1 < n the loops of
    the n-step block visit no position and [new_len] = L - n + 1 is
    negative, so [del arr[new_len:]] counts from the end: each array keeps
    its first max(2L - n + 1, 0) entries, unadjusted. *)
Theorem n_step_adjust_short_trajectory {State Act : Type} (n : Z) (d : Q)
    (t : Trajectory State Act) :
  (Py.len (tr_rewards t) + 1 < n)%Z ->
  length (tr_states t) = length (tr_rewards t) ->
  length (tr_actions t) = length (tr_rewards t) ->
  length (tr_next_states t) = length (tr_rewards t) ->
  length (tr_terminals t) = length (tr_rewards t) ->
  let keep := Z.to_nat (2 * Py.len (tr_rewards t) - n + 1) in
  n_step_adjust n d t
  = Ok (mkTrajectory (take keep (tr_states t)) (take keep (tr_actions t))
          (take keep (tr_rewards t)) (take keep (tr_next_states t))
          (take keep (tr_terminals t))).
Proof.
  intros Hn Hst Hac Hns Htm keep. unfold n_step_adjust, Py.range_.
  replace (Z.to_nat (Py.len (tr_rewards t) - n + 1)) with 0%nat by lia.
  cbn [seq n_step_loop bind].
  assert (Hstart : forall (A : Type) (l : list A),
             length l = length (tr_rewards t) ->
             Py.slice_start l (Py.len (tr_states t) - n + 1) = keep).
  { intros A l Hl. unfold Py.slice_start, Py.len in *. rewrite Hst, Hl.
    destruct (Z.ltb_spec (Z.of_nat (length (tr_rewards t)) - n + 1) 0); lia. }
  unfold Py.del_from. by rewrite !Hstart.
Qed.

(** X14. On aligned arrays of L transitions and with 1 < n <= L + 1, the
    n-step block returns; it cuts n - 1 entries from the end of every
    array; each reward left is [rewards[i]] plus [discount^j * rewards[i+j]]
    for j = 1, ..., n-1, stopping after the first terminal [i+j] (a
    transition that is itself terminal keeps its reward); actions, next
    states and terminals keep their entries; and [states[i]] is replaced by
    the state of the last transition folded in. *)
Theorem n_step_block_values {State Act : Type} (n : Z) (d : Q)
    (t : Trajectory State Act) :
  (1 < n <= Py.len (tr_rewards t) + 1)%Z ->
  length (tr_states t) = length (tr_rewards t) ->
  length (tr_actions t) = length (tr_rewards t) ->
  length (tr_terminals t) = length (tr_rewards t) ->
  exists t',
    n_step_adjust n d t = Ok t'
    /\ Py.len (tr_rewards t') = (Py.len (tr_rewards t) - (n - 1))%Z
    /\ length (tr_states t') = length (tr_rewards t')
    /\ length (tr_actions t') = length (tr_rewards t')
    /\ length (tr_terminals t') = length (tr_rewards t')
    /\ forall i,
         (i < length (tr_rewards t'))%nat ->
         tr_rewards t' !! i = adjusted_reward n d (tr_rewards t) (tr_terminals t) i
         /\ tr_states t' !! i = adjusted_state n (tr_states t) (tr_terminals t) i
         /\ tr_actions t' !! i = tr_actions t !! i
         /\ tr_next_states t' !! i = tr_next_states t !! i
         /\ tr_terminals t' !! i = tr_terminals t !! i.
Proof.
  intros Hn Hst Hac Htm.
  destruct (n_step_adjust_aligned n d t) as (t' & Hadjust & Hst' & Hac' & Htm' & _);
    auto; [lia|].
  destruct (n_step_adjust_values n d t t' Hn Hst Htm Hadjust) as [Hlen Hvalues].
  exists t'. repeat match goal with |- _ /\ _ => split end; auto.
Qed.

(** * Actors made by the executor *)

(** X16. [create_remote_workers] returns max(num_actors, 0) handles, all
    different, each of an actor of class [cls] that this call has made; the
    actors that were there before are left as they were. *)
Theorem create_remote_workers_fresh_actors {Cls Atom : Type} (cls : Cls)
    (num_actors : Z) (args : list (RayExecutor.pyobj Atom))
    (c : RayExecutor.cluster Cls Atom) :
  length (RayExecutor.create_remote_workers cls num_actors args c).2
  = Z.to_nat (Z.max num_actors 0)
  /\ NoDup (RayExecutor.create_remote_workers cls num_actors args c).2
  /\ take (length c) (RayExecutor.create_remote_workers cls num_actors args c).1 = c
  /\ length (RayExecutor.create_remote_workers cls num_actors args c).1
     = (length c + Z.to_nat num_actors)%nat
  /\ Forall
       (fun handle =>
          (length c <= handle)%nat
          /\ exists posargs,
               (RayExecutor.create_remote_workers cls num_actors args c).1 !! handle
               = Some (cls, posargs))
       (RayExecutor.create_remote_workers cls num_actors args c).2.
Proof.
  unfold RayExecutor.create_remote_workers. rewrite create_loop_spec.
  unfold RayExecutor.cluster in *. cbn [fst snd].
  repeat match goal with |- _ /\ _ => split end.
  - rewrite length_seq. lia.
  - apply NoDup_seq.
  - by rewrite take_app_length.
  - by rewrite length_app, length_replicate.
  - apply Forall_forall. intros h Hh. apply elem_of_seq in Hh. split; [lia|].
    eexists. rewrite lookup_app_r by lia. apply lookup_replicate_2. lia.
Qed.

(** * Building from configurations *)

Section BuilderFacts.

Import Builders.

Context {Cls V : Type}.

Implicit Types (registry : gmap string Cls) (config : gmap string (value V)).

(** X17. [build_agent_from_config] pops ['type'] from the caller's dictionary
    before anything can fail: without the key it raises [KeyError] and
    leaves the dictionary alone; with it, the dictionary comes back without
    ['type'] whatever the outcome, and the outcome is the registered class
    called with exactly the remaining entries, or [TypeError] when the
    value of ['type'] is no registered name. *)
Theorem build_agent_outcomes registry config :
  (config !! "type" = None ->
   build_agent_from_config registry config = (config, Raised (KeyError "type")))
  /\ (forall type_,
        config !! "type" = Some type_ ->
        (build_agent_from_config registry config).1 = delete "type" config
        /\ (forall cls kwargs,
              (build_agent_from_config registry config).2 = Returned (cls, kwargs) <->
              kwargs = delete "type" config
              /\ exists name, type_ = Str name /\ registry !! name = Some cls)
        /\ ((forall name, type_ = Str name -> registry !! name = None) ->
            (build_agent_from_config registry config).2 = Raised TypeError)).
Proof.
  unfold build_agent_from_config. split.
  - by intros ->.
  - intros type_ ->. destruct type_ as [name|v|v]; cbn.
    + destruct (registry !! name) as [cls|] eqn:Hname; cbn.
      * split; [done|]. split.
        -- intros cls' kwargs. split.
           ++ intros [= <- <-]. eauto.
           ++ intros (-> & name' & [= <-] & Hcls). congruence.
        -- intros Hnone. specialize (Hnone name eq_refl). congruence.
      * split; [done|]. split; [|done].
        intros cls' kwargs. split; [done|].
        intros (_ & name' & [= <-] & Hcls). congruence.
    + split; [done|]. split; [|done].
      intros cls' kwargs. split; [done|]. intros (_ & name' & ? & _). discriminate.
    + split; [done|]. split; [|done].
      intros cls' kwargs. split; [done|]. intros (_ & name' & ? & _). discriminate.
Qed.

(** X18. The dictionary that [build_agent_from_config] has been applied to
    cannot be built from again: a second call on it, whatever the first one
    returned, raises [KeyError] for ['type']. *)
Theorem build_agent_twice registry config :
  build_agent_from_config registry (build_agent_from_config registry config).1
  = ((build_agent_from_config registry config).1, Raised (KeyError "type")).
Proof.
  assert (Hgone : forall c : gmap string (value V),
             c !! "type" = None ->
             build_agent_from_config registry c = (c, Raised (KeyError "type"))).
  { intros c Hc. unfold build_agent_from_config. by rewrite Hc. }
  unfold build_agent_from_config at 2 3.
  destruct (config !! "type") as [type_|] eqn:Htype.
  - assert (Hdel : delete "type" config !! "type" = None) by apply lookup_delete_eq.
    destruct (get_class registry type_) as [[cls|]|e]; cbn; by apply Hgone.
  - cbn. by apply Hgone.
Qed.

(** X19. [build_env_from_config] returns the registered class called with the
    value of ['gym_env'] alone, exactly when ['type'] holds a registered
    name and ['gym_env'] is present; a missing ['type'] raises [KeyError]
    first, and a missing ['gym_env'] raises [KeyError] even when the type
    name is not registered, the argument being evaluated before the call. *)
Theorem build_env_outcomes registry config :
  (forall cls gym_env,
      build_env_from_config registry config = Returned (cls, gym_env) <->
      (exists name, config !! "type" = Some (Str name) /\ registry !! name = Some cls)
      /\ config !! "gym_env" = Some gym_env)
  /\ (config !! "type" = None ->
      build_env_from_config registry config = Raised (KeyError "type"))
  /\ (forall name,
        config !! "type" = Some (Str name) -> config !! "gym_env" = None ->
        build_env_from_config registry config = Raised (KeyError "gym_env"))
  /\ (forall name gym_env,
        config !! "type" = Some (Str name) -> registry !! name = None ->
        config !! "gym_env" = Some gym_env ->
        build_env_from_config registry config = Raised TypeError).
Proof.
  unfold build_env_from_config. split; [|split; [|split]].
  - intros cls gym_env. split.
    + destruct (config !! "type") as [[name|v|v]|]; cbn; try discriminate.
      * destruct (config !! "gym_env") as [g|]; [|discriminate].
        destruct (registry !! name) as [c|] eqn:Hname; [|discriminate].
        intros [= <- <-]. eauto.
      * by destruct (config !! "gym_env").
    + intros ((name & -> & Hcls) & ->). cbn. by rewrite Hcls.
  - by intros ->.
  - by intros name -> ->.
  - intros name gym_env -> Hnone ->. cbn. by rewrite Hnone.
Qed.

End BuilderFacts.

(** * The sequence helper *)

Section SequenceFacts.

Import SequenceHelper.

Context {Tensor : Type}.
Variable int32_tensor_of_ints : list Z -> Tensor.
Variable int32_tensor_of_floats : list Q -> Tensor.

Lemma total_app (l1 l2 : list Z) : total (l1 ++ l2) = (total l1 + total l2)%Z.
Proof. unfold total. induction l1 as [|x l1 IH]; simpl; lia. Qed.

(** The loop of [calc_sequence_lengths], started anywhere. *)
Lemma lengths_loop_spec (sequence_indices : list Z) :
  forall (sequence_lengths : list Z) (length_ : Z),
    (0 <= length_)%Z ->
    exists new length',
      lengths_loop sequence_indices sequence_lengths length_
      = (sequence_lengths ++ new, length')
      /\ (0 <= length')%Z
      /\ Forall (fun n => (1 <= n)%Z) new
      /\ (total new + length' = length_ + Z.of_nat (length sequence_indices))%Z
      /\ length new = count_ends sequence_indices
      /\ (0 <? length')%Z
         = match sequence_indices with
           | [] => (0 <? length_)%Z
           | _ => ends_open sequence_indices
           end.
Proof.
  induction sequence_indices as [|index rest IH]; intros sl len0 Hlen; cbn [lengths_loop].
  - exists [], len0. rewrite app_nil_r. repeat split; auto. unfold total. simpl. lia.
  - assert (Hopen : forall b : bool,
               match rest with [] => b | _ => ends_open rest end
               = match rest with [] => b | _ => ends_open (index :: rest) end).
    { intros b. by destruct rest as [|index' rest']. }
    destruct (Z.eqb_spec index 1) as [->|Hne].
    + destruct (IH (sl ++ [len0 + 1]%Z) 0%Z ltac:(lia))
        as (new & len' & -> & Hlen' & Hall & Hsum & Hcount & Hlast).
      exists ((len0 + 1)%Z :: new), len'. rewrite <- app_assoc.
      repeat match goal with |- _ /\ _ => split end; auto.
      * constructor; [lia | exact Hall].
      * unfold total in *. cbn [foldr length]. lia.
      * unfold count_ends. rewrite filter_cons_True by done. cbn. by rewrite Hcount.
      * rewrite Hlast, Hopen. destruct rest; [|done]. reflexivity.
    + destruct (IH sl (len0 + 1)%Z ltac:(lia))
        as (new & len' & -> & Hlen' & Hall & Hsum & Hcount & Hlast).
      exists new, len'.
      repeat match goal with |- _ /\ _ => split end; auto.
      * cbn [length]. lia.
      * unfold count_ends. rewrite filter_cons_False by done. exact Hcount.
      * rewrite Hlast, Hopen. destruct rest; [|done].
        unfold ends_open. cbn. apply Z.eqb_neq in Hne. rewrite Hne.
        cbn. apply Z.ltb_lt. lia.
Qed.

(** The list of lengths splits the input. *)
Lemma sequence_lengths_list_spec (sequence_indices : list Z) :
  Forall (fun n => (1 <= n)%Z) (sequence_lengths_list sequence_indices)
  /\ total (sequence_lengths_list sequence_indices)
     = Z.of_nat (length sequence_indices)
  /\ length (sequence_lengths_list sequence_indices)
     = (count_ends sequence_indices
        + (if ends_open sequence_indices then 1 else 0))%nat.
Proof.
  unfold sequence_lengths_list.
  destruct (lengths_loop_spec sequence_indices [] 0%Z ltac:(lia))
    as (new & len' & -> & Hlen' & Hall & Hsum & Hcount & Hlast).
  cbn [app].
  assert (Hopen : (0 <? len')%Z = ends_open sequence_indices).
  { rewrite Hlast. by destruct sequence_indices. }
  rewrite <- Hopen. destruct (Z.ltb_spec 0 len') as [Hpos|Hzero].
  - repeat split.
    + apply Forall_app. split; [exact Hall|]. apply Forall_singleton. lia.
    + rewrite total_app. unfold total at 2. cbn. lia.
    + rewrite length_app. cbn. lia.
  - repeat split; auto; lia.
Qed.

(** X20. [calc_sequence_lengths] returns the tensor of a list of lengths that
    splits the input: every length is at least 1, the lengths add up to
    the number of entries, and there is one length per end mark plus one
    for a last sequence that the input leaves open. *)
Theorem sequence_lengths_partition (sequence_indices : list Z) :
  _graph_fn_calc_sequence_lengths int32_tensor_of_ints sequence_indices
  = int32_tensor_of_ints (sequence_lengths_list sequence_indices)
  /\ Forall (fun n => (1 <= n)%Z) (sequence_lengths_list sequence_indices)
  /\ total (sequence_lengths_list sequence_indices)
     = Z.of_nat (length sequence_indices)
  /\ length (sequence_lengths_list sequence_indices)
     = (count_ends sequence_indices
        + (if ends_open sequence_indices then 1 else 0))%nat.
Proof. split; [reflexivity | apply sequence_lengths_list_spec]. Qed.







End SequenceFacts.

(** * Instances of the further properties

    Each property that has a condition, on the counting environment. *)

Ltac instance_condition :=
  first [ reflexivity | lia | (cbn; lia) | (by vm_compute) | constructor ].

Lemma stops_short_only_on_terminal_witness :
  (0 < 7%Z)%Z
  /\ (exists self' sample,
    execute_and_get_timesteps Counting.small 7%Z 0%Z
      true true (Counting.fresh 3 true 1 (9 # 10) 1) 0%Q 1%Q
    = Some (self', Ok sample)
    /\ (m_timesteps_executed (metrics sample) = 7%Z
        \/ (true = true /\ last_terminal self' = true))
    /\ (true = false ->
        m_timesteps_executed (metrics sample) = 7%Z)).
Proof.
  split; [instance_condition|].
  apply (stops_short_only_on_terminal Counting.small 7%Z 0%Z true true
           (Counting.fresh 3 true 1 (9 # 10) 1) 0%Q 1%Q);
    instance_condition.
Defined.

Lemma last_episode_entry_is_stored_reward_witness :
  (0 < 7%Z)%Z
  /\ (exists self' sample,
    execute_and_get_timesteps Counting.small 7%Z 0%Z
      true false (Counting.fresh 3 true 1 (9 # 10) 1) 0%Q 1%Q
    = Some (self', Ok sample)
    /\ Py.last_item (episode_rewards self') = Ok (last_ep_reward self')).
Proof.
  split; [instance_condition|].
  apply (last_episode_entry_is_stored_reward Counting.small 7%Z 0%Z true false
           (Counting.fresh 3 true 1 (9 # 10) 1) 0%Q 1%Q);
    instance_condition.
Defined.


Lemma one_sample_entry_per_call_witness :
  (0 < 7%Z)%Z
  /\ (exists self' sample frames,
    execute_and_get_timesteps Counting.small 7%Z 0%Z
      true false (Counting.fresh 3 true 1 (9 # 10) 2) 0%Q 1%Q
    = Some (self', Ok sample)
    /\ sample_steps self' = sample_steps (Counting.fresh 3 true 1 (9 # 10) 2) ++ [m_timesteps_executed (metrics sample)]
    /\ sample_times self' = sample_times (Counting.fresh 3 true 1 (9 # 10) 2) ++ [runtime (metrics sample)]
    /\ sample_env_frames self' = sample_env_frames (Counting.fresh 3 true 1 (9 # 10) 2) ++ [frames]).
Proof.
  split; [instance_condition|].
  apply (one_sample_entry_per_call Counting.small 7%Z 0%Z true false
           (Counting.fresh 3 true 1 (9 # 10) 2) 0%Q 1%Q);
    instance_condition.
Defined.

Lemma environment_frames_per_call_witness :
  (0 < 7%Z)%Z
  /\ (exists self' sample frames,
    execute_and_get_timesteps Counting.small 7%Z 0%Z
      true false (Counting.fresh 3 true 1 (9 # 10) 2) 0%Q 1%Q
    = Some (self', Ok sample)
    /\ last (sample_env_frames self') = Some frames
    /\ ((1 <= worker_frameskip (Counting.fresh 3 true 1 (9 # 10) 2))%Z ->
        (m_timesteps_executed (metrics sample) <= frames
         <= worker_frameskip (Counting.fresh 3 true 1 (9 # 10) 2) * m_timesteps_executed (metrics sample))%Z)
    /\ ((worker_frameskip (Counting.fresh 3 true 1 (9 # 10) 2) <= 0)%Z -> frames = 0%Z)).
Proof.
  split; [instance_condition|].
  apply (environment_frames_per_call Counting.small 7%Z 0%Z true false
           (Counting.fresh 3 true 1 (9 # 10) 2) 0%Q 1%Q);
    instance_condition.
Defined.

Lemma worker_steps_per_call_witness :
  (0 < 7%Z)%Z
  /\ (exists self' sample,
    execute_and_get_timesteps Counting.small 7%Z 0%Z
      true false (Counting.fresh 3 true 1 (9 # 10) 1) 0%Q 1%Q
    = Some (self', Ok sample)
    /\ (m_timesteps_executed (metrics sample)
        <= total_worker_steps self' - total_worker_steps (Counting.fresh 3 true 1 (9 # 10) 1))%Z
    /\ ((Py.len (episode_rewards self') = Py.len (episode_rewards (Counting.fresh 3 true 1 (9 # 10) 1)) + 1)%Z ->
        (total_worker_steps self' - total_worker_steps (Counting.fresh 3 true 1 (9 # 10) 1)
         = m_timesteps_executed (metrics sample))%Z)).
Proof.
  split; [instance_condition|].
  apply (worker_steps_per_call Counting.small 7%Z 0%Z true false
           (Counting.fresh 3 true 1 (9 # 10) 1) 0%Q 1%Q);
    instance_condition.
Defined.

Lemma booked_episode_lengths_within_cap_witness :
  (0 < 7%Z)%Z
  /\ (0 <= last_ep_timestep (Counting.fresh 3 true 1 (9 # 10) 1) < 2%Z)%Z
  /\ (exists self' sample new,
    execute_and_get_timesteps Counting.small 7%Z 2%Z
      true false (Counting.fresh 3 true 1 (9 # 10) 1) 0%Q 1%Q
    = Some (self', Ok sample)
    /\ episode_timesteps self' = episode_timesteps (Counting.fresh 3 true 1 (9 # 10) 1) ++ new
    /\ new <> []
    /\ Forall (fun x => (1 <= x <= 2%Z)%Z) new).
Proof.
  split; [instance_condition|].
  split; [instance_condition|].
  apply (booked_episode_lengths_within_cap Counting.small 7%Z 2%Z true false
           (Counting.fresh 3 true 1 (9 # 10) 1) 0%Q 1%Q);
    instance_condition.
Defined.


Lemma statistics_after_a_call_witness :
  (0 < 7%Z)%Z
  /\ (0%Q <= 1%Q)%Q
  /\ Forall (fun x => (0 < x)%Q) (sample_times (Counting.fresh 3 true 1 (9 # 10) 1))
  /\ (exists self' sample stats,
    execute_and_get_timesteps Counting.small 7%Z 0%Z
      true false (Counting.fresh 3 true 1 (9 # 10) 1) 0%Q 1%Q
    = Some (self', Ok sample)
    /\ get_workload_statistics self' = Ok stats
    /\ final_episode_reward stats = last_ep_reward self'
    /\ ws_episode_rewards stats = episode_rewards self'
    /\ ws_episode_timesteps stats = episode_timesteps self'
    /\ ws_episodes_executed stats = episodes_executed self'
    /\ worker_steps stats = total_worker_steps self'
    /\ Forall (fun x => (0 < x)%Q) (sample_times self')).
Proof.
  split; [instance_condition|].
  split; [instance_condition|].
  split; [instance_condition|].
  apply (statistics_after_a_call Counting.small 7%Z 0%Z true false
           (Counting.fresh 3 true 1 (9 # 10) 1) 0%Q 1%Q);
    instance_condition.
Defined.

Lemma importance_weights_floor_witness :
  (0 < 7%Z)%Z
  /\ (exists self' sample,
    execute_and_get_timesteps Counting.small 7%Z 0%Z
      true false (Counting.fresh 3 true 1 (9 # 10) 1) 0%Q 1%Q
    = Some (self', Ok sample)
    /\ (worker_computes_weights (Counting.fresh 3 true 1 (9 # 10) 1) = false ->
        Forall (fun w => w = 1%Q) (importance_weights (sample_batch sample)))
    /\ (worker_computes_weights (Counting.fresh 3 true 1 (9 # 10) 1) = true ->
        Forall (fun w => (Counting.small <= w)%Q) (importance_weights (sample_batch sample)))).
Proof.
  split; [instance_condition|].
  apply (importance_weights_floor Counting.small 7%Z 0%Z true false
           (Counting.fresh 3 true 1 (9 # 10) 1) 0%Q 1%Q);
    instance_condition.
Defined.

Lemma non_positive_budget_raises_witness :
  ((-3)%Z <= 0)%Z
  /\ (execute_and_get_timesteps Counting.small (-3)%Z 0%Z
    true true (Counting.fresh 3 true 1 (9 # 10) 1) 0%Q 1%Q
  = Some ((Counting.fresh 3 true 1 (9 # 10) 1), Raise UnboundLocalError)).
Proof.
  split; [instance_condition|].
  apply (non_positive_budget_raises Counting.small (-3)%Z 0%Z true true
           (Counting.fresh 3 true 1 (9 # 10) 1) 0%Q 1%Q);
    instance_condition.
Defined.

Lemma count_is_the_batch_size_witness :
  (0 < 7%Z)%Z
  /\ (exists self' sample,
    execute_and_get_timesteps Counting.small 7%Z 0%Z
      true false (Counting.fresh 3 true 2 (9 # 10) 1) 0%Q 1%Q
    = Some (self', Ok sample)
    /\ execute_and_get_with_count Counting.small 7%Z 0%Z
         true false (Counting.fresh 3 true 2 (9 # 10) 1) 0%Q 1%Q
       = Some (self', Ok (sample, Py.len (rewards (sample_batch sample))))
    /\ Py.len (states (sample_batch sample)) = Py.len (rewards (sample_batch sample))
    /\ Py.len (actions (sample_batch sample)) = Py.len (rewards (sample_batch sample))
    /\ Py.len (terminals (sample_batch sample)) = Py.len (rewards (sample_batch sample))).
Proof.
  split; [instance_condition|].
  apply (count_is_the_batch_size Counting.small 7%Z 0%Z true false
           (Counting.fresh 3 true 2 (9 # 10) 1) 0%Q 1%Q);
    instance_condition.
Defined.

Lemma n_step_block_values_witness :
  (1 < 2 <= Py.len (tr_rewards Counting.three_steps) + 1)%Z
  /\ length (tr_states Counting.three_steps) = length (tr_rewards Counting.three_steps)
  /\ length (tr_actions Counting.three_steps) = length (tr_rewards Counting.three_steps)
  /\ length (tr_terminals Counting.three_steps) = length (tr_rewards Counting.three_steps)
  /\ exists t',
       n_step_adjust 2 (9 # 10) Counting.three_steps = Ok t'
       /\ Py.len (tr_rewards t') = (Py.len (tr_rewards Counting.three_steps) - (2 - 1))%Z
       /\ length (tr_states t') = length (tr_rewards t')
       /\ length (tr_actions t') = length (tr_rewards t')
       /\ length (tr_terminals t') = length (tr_rewards t')
       /\ forall i,
            (i < length (tr_rewards t'))%nat ->
            tr_rewards t' !! i
            = adjusted_reward 2 (9 # 10) (tr_rewards Counting.three_steps)
                (tr_terminals Counting.three_steps) i
            /\ tr_states t' !! i
               = adjusted_state 2 (tr_states Counting.three_steps)
                   (tr_terminals Counting.three_steps) i
            /\ tr_actions t' !! i = tr_actions Counting.three_steps !! i
            /\ tr_next_states t' !! i = tr_next_states Counting.three_steps !! i
            /\ tr_terminals t' !! i = tr_terminals Counting.three_steps !! i.
Proof.
  split; [instance_condition|].
  split; [instance_condition|].
  split; [instance_condition|].
  split; [instance_condition|].
  apply (n_step_block_values 2 (9 # 10) Counting.three_steps);
    instance_condition.
Defined.

Lemma n_step_adjust_short_trajectory_witness :
  (Py.len (tr_rewards Counting.three_steps) + 1 < 5)%Z
  /\ length (tr_states Counting.three_steps) = length (tr_rewards Counting.three_steps)
  /\ length (tr_actions Counting.three_steps) = length (tr_rewards Counting.three_steps)
  /\ length (tr_next_states Counting.three_steps)
     = length (tr_rewards Counting.three_steps)
  /\ length (tr_terminals Counting.three_steps)
     = length (tr_rewards Counting.three_steps)
  /\ n_step_adjust 5 (9 # 10) Counting.three_steps
     = Ok (mkTrajectory [0; 1]%nat [tt; tt] [1; 1]%Q [1; 2]%nat [false; false]).
Proof.
  split; [instance_condition|].
  split; [instance_condition|].
  split; [instance_condition|].
  split; [instance_condition|].
  split; [instance_condition|].
  apply (n_step_adjust_short_trajectory 5 (9 # 10) Counting.three_steps);
    instance_condition.
Defined.
